(** * MaaFramework: the task executor of [source/MaaFramework/Task/TaskBase.cpp]

    A shallow embedding of [TaskBase::run_recognition], [TaskBase::run_action]
    and the bookkeeping behind them ([generate_node_id], [set_node_detail],
    [set_task_detail], [init], [notify], [debug_mode]).

    The C++ methods mutate process-wide state: the runtime cache of the
    tasker an executor points to, the static counter [s_global_node_id],
    the notification sink and the logger.  Here that state is one record,
    [World], threaded through a state monad [M].  The collaborators whose
    code lives in other files (the recognizer, the actuator, the pipeline
    context, [cv::Mat]) are the fields of the class [Collaborators]. *)

From stdpp Require Import gmap strings list fin_maps sorting.

#[local] Set Warnings "-register-all".

Local Open Scope string_scope.
Local Open Scope list_scope.
Local Open Scope Z_scope.

(** ** Plain data *)

(** [cv::Rect]: the matched region. *)
Record Rect := { rect_x : Z; rect_y : Z; rect_width : Z; rect_height : Z }.

(** [RecoResult]: the fields this file reads.  [box] is the
    [std::optional<cv::Rect>] that tells a match from a miss. *)
Module RecoResult.
Record t := { reco_id : Z; name : string; box : option Rect }.
(** Modelled from the spec: the empty result that [return {}] gives (the
    struct is declared in a header that is not part of the sources): no
    region, and the id and name of a value-initialised struct. *)
Definition empty : t := {| reco_id := 0; name := ""; box := None |}.
End RecoResult.

(** [NodeDetail]: the record [run_action] builds, field for field. *)
Module NodeDetail.
Record t := { node_id : Z; name : string; reco_id : Z; completed : bool }.
(** Modelled from the spec: the empty record that [return {}] gives (the
    struct is declared in a header that is not part of the sources). *)
Definition empty : t :=
  {| node_id := 0; name := ""; reco_id := 0; completed := false |}.
End NodeDetail.

(** [TaskDetail]: the fields this file touches ([.entry], [.node_ids]). *)
Module TaskDetail.
Record t := { entry : string; node_ids : list Z }.
End TaskDetail.

(** [json::value], as far as the callback details use it. *)
Inductive json :=
| JNum (z : Z)
| JString (s : string)
| JArray (l : list json)
| JObject (l : list (string * json)).

(** Modelled from the spec: the message kinds of [MaaFramework/MaaMsg.h]
    (the header is not part of the sources); one constructor per macro the
    file passes to [notify]. *)
Inductive Msg :=
| MaaMsg_Task_NextList_Starting
| MaaMsg_Task_NextList_Succeeded
| MaaMsg_Task_NextList_Failed
| MaaMsg_Task_Recognition_Starting
| MaaMsg_Task_Recognition_Succeeded
| MaaMsg_Task_Recognition_Failed
| MaaMsg_Task_Action_Starting
| MaaMsg_Task_Action_Succeeded
| MaaMsg_Task_Action_Failed.

(** The severity of a log statement ([LogFunc], [LogError], ...); a log
    line is the severity and the literal text streamed first. *)
Inductive LogLevel := LogFunc | LogError | LogDebug | LogInfo.

(** ** 64-bit ids *)

(** Modelled from the spec: the counter [s_global_node_id] is declared in
    TaskBase.h, which is not part of the sources.  The ids it hands out are
    [int64_t] ([set_node_detail]'s parameter, [generate_node_id]'s return
    type); section 5 has the allocation atomic, and [++] on an atomic
    64-bit integer wraps around in two's complement. *)
Definition INT64_MIN : Z := - 2 ^ 63.
Definition INT64_MAX : Z := 2 ^ 63 - 1.
Definition wrap64 (z : Z) : Z := (z + 2 ^ 63) mod 2 ^ 64 - 2 ^ 63.

(** ** The runtime cache *)

(** Modelled from the spec: the tasker's [RuntimeCache] (section 4.3), whose
    code is not part of the sources: three keyed stores, each written by
    its setter and read by its getter; a setter overwrites the entry of its
    key and leaves every other entry alone. *)
Module RuntimeCache.
Record t := {
  node_details : gmap Z NodeDetail.t;
  latest_nodes : gmap string Z;
  task_details : gmap Z TaskDetail.t
}.
Definition empty : t :=
  {| node_details := ∅; latest_nodes := ∅; task_details := ∅ |}.
Definition set_node_detail (node_id : Z) (detail : NodeDetail.t) (c : t) : t :=
  {| node_details := <[node_id := detail]> (node_details c);
     latest_nodes := latest_nodes c;
     task_details := task_details c |}.
Definition get_node_detail (node_id : Z) (c : t) : option NodeDetail.t :=
  node_details c !! node_id.
Definition set_latest_node (name : string) (node_id : Z) (c : t) : t :=
  {| node_details := node_details c;
     latest_nodes := <[name := node_id]> (latest_nodes c);
     task_details := task_details c |}.
Definition get_latest_node (name : string) (c : t) : option Z :=
  latest_nodes c !! name.
Definition set_task_detail (task_id : Z) (detail : TaskDetail.t) (c : t) : t :=
  {| node_details := node_details c;
     latest_nodes := latest_nodes c;
     task_details := <[task_id := detail]> (task_details c) |}.
Definition get_task_detail (task_id : Z) (c : t) : option TaskDetail.t :=
  task_details c !! task_id.
#[global] Instance inhabited : Inhabited t := populate empty.
End RuntimeCache.

(** A [Tasker*]: the address of a tasker.  [nullptr] is [None] at the
    places that hold one. *)
Definition TaskerPtr := nat.

(** ** Collaborators *)

(** The parts of the framework this file calls into and whose code lives
    elsewhere.  [Mat] is [cv::Mat]; [PipelineData] is the node
    configuration, of which the executor reads [enabled] and [focus] and
    passes the rest on; [Ext] is whatever state the recognizer and the
    actuator work on (the device, the recognition id counter, ...).
    [Recognizer_recognize] and [Actuator_run] get what the C++ objects are
    constructed with (the tasker, the context's node table, the image) and
    the arguments of the call.  Their effects stay within [Ext]: a call is
    taken not to write, behind the executor's back, to the runtime caches,
    the node counter, the pipeline or the notification sink. *)
Class Collaborators := {
  Mat : Type;
  Mat_empty : Mat → bool;
  PipelineData : Type;
  enabled : PipelineData → bool;
  focus : PipelineData → bool;
  Ext : Type;
  Recognizer_recognize :
    option TaskerPtr → (string → PipelineData) → Mat → PipelineData →
    Ext → RecoResult.t * Ext;
  Actuator_run :
    option TaskerPtr → (string → PipelineData) → Rect → Z → PipelineData →
    Ext → bool * Ext
}.

Section Executor.
Context `{C : Collaborators}.

(** [Context]: the pipeline view; [get_pipeline_data] is total. *)
Record Context := { get_pipeline_data : string → PipelineData }.

(** What the executor does to its collaborators, in the order it happens:
    a call that reaches [tasker_->notify], a call of
    [recognizer.recognize] for a candidate with what it returned, a call of
    [actuator.run] with its arguments and what it returned. *)
Inductive Obs :=
| ONotify (t : TaskerPtr) (msg : Msg) (detail : json)
| ORecognize (name : string) (result : RecoResult.t)
| OActuate (box : Rect) (reco_id : Z) (name : string) (ret : bool).

(** The state the executor's methods read and write. *)
Record World := {
  (** the runtime cache of each tasker; one that was never written to is
      empty *)
  taskers : gmap TaskerPtr RuntimeCache.t;
  (** [GlobalOptionMgr::get_instance().debug_mode()] *)
  global_debug_mode : bool;
  (** the static counter behind [generate_node_id] *)
  s_global_node_id : Z;
  (** the collaborators' own state *)
  ext : Ext;
  (** the calls made to the collaborators so far, oldest first *)
  trace : list Obs;
  (** the log lines written so far, oldest first *)
  log : list (LogLevel * string)
}.

(** The members of [TaskBase]. *)
Record TaskBase := {
  tasker_ : option TaskerPtr;
  entry_ : string;
  cur_task_ : string;
  context_ : option Context;
  task_id_ : Z
}.

(** ** The state monad *)

Definition M (A : Type) : Type := World → A * World.

#[export] Instance M_ret : MRet M := λ A a w, (a, w).
#[export] Instance M_bind : MBind M := λ A B f m w, f (m w).1 (m w).2.

Definition when (b : bool) (m : M unit) : M unit :=
  if b then m else mret tt.

(** Writes to one field of the world. *)
Definition add_trace (obs : list Obs) (w : World) : World :=
  {| taskers := taskers w; global_debug_mode := global_debug_mode w;
     s_global_node_id := s_global_node_id w; ext := ext w;
     trace := trace w ++ obs; log := log w |}.

Definition add_log (lines : list (LogLevel * string)) (w : World) : World :=
  {| taskers := taskers w; global_debug_mode := global_debug_mode w;
     s_global_node_id := s_global_node_id w; ext := ext w;
     trace := trace w; log := log w ++ lines |}.

Definition set_ext (e : Ext) (w : World) : World :=
  {| taskers := taskers w; global_debug_mode := global_debug_mode w;
     s_global_node_id := s_global_node_id w; ext := e;
     trace := trace w; log := log w |}.

Definition set_s_global_node_id (id : Z) (w : World) : World :=
  {| taskers := taskers w; global_debug_mode := global_debug_mode w;
     s_global_node_id := id; ext := ext w;
     trace := trace w; log := log w |}.

Definition set_cache (t : TaskerPtr) (c : RuntimeCache.t) (w : World) : World :=
  {| taskers := <[t := c]> (taskers w); global_debug_mode := global_debug_mode w;
     s_global_node_id := s_global_node_id w; ext := ext w;
     trace := trace w; log := log w |}.

(** The cache behind [tasker->runtime_cache()]. *)
Definition runtime_cache (t : TaskerPtr) (w : World) : RuntimeCache.t :=
  taskers w !!! t.

Definition emit (o : Obs) : M unit := λ w, (tt, add_trace [o] w).

Definition write_log (level : LogLevel) (text : string) : M unit := λ w,
  (tt, add_log [(level, text)] w).

Definition update_cache (t : TaskerPtr) (f : RuntimeCache.t → RuntimeCache.t) : M unit := λ w,
  (tt, set_cache t (f (runtime_cache t w)) w).

Definition read_cache {A} (t : TaskerPtr) (f : RuntimeCache.t → A) : M A := λ w,
  (f (runtime_cache t w), w).

(** A call into a collaborator: it works on [ext] and nothing else. *)
Definition call_ext {A} (f : Ext → A * Ext) : M A := λ w,
  ((f (ext w)).1, set_ext (f (ext w)).2 w).

(** ** The methods of [TaskBase] *)

(** [TaskBase::task_id] *)
Definition task_id (self : TaskBase) : Z := task_id_ self.

(** [TaskBase::debug_mode] *)
Definition debug_mode : M bool := λ w, (global_debug_mode w, w).

(** [TaskBase::notify] *)
Definition notify (self : TaskBase) (msg : Msg) (detail : json) : M unit :=
  match tasker_ self with
  | None => mret tt
  | Some t => emit (ONotify t msg detail)
  end.

(** [TaskBase::generate_node_id]: [return ++s_global_node_id;] *)
Definition generate_node_id : M Z := λ w,
  let id := wrap64 (s_global_node_id w + 1) in
  (id, set_s_global_node_id id w).

(** [TaskBase::set_task_detail] *)
Definition set_task_detail (self : TaskBase) (detail : TaskDetail.t) : M unit :=
  match tasker_ self with
  | None => write_log LogError "tasker is null"
  | Some t => update_cache t (RuntimeCache.set_task_detail (task_id_ self) detail)
  end.

(** [TaskBase::set_node_detail] *)
Definition set_node_detail (self : TaskBase) (node_id : Z) (detail : NodeDetail.t) : M unit :=
  match tasker_ self with
  | None => write_log LogError "tasker is null"
  | Some t =>
      update_cache t (RuntimeCache.set_node_detail node_id detail);;
      update_cache t (RuntimeCache.set_latest_node (NodeDetail.name detail) node_id);;
      cached ← read_cache t (RuntimeCache.get_task_detail (task_id_ self));
      let task_detail :=
        default {| TaskDetail.entry := entry_ self; TaskDetail.node_ids := [] |} cached in
      let task_detail :=
        {| TaskDetail.entry := TaskDetail.entry task_detail;
           TaskDetail.node_ids := TaskDetail.node_ids task_detail ++ [node_id] |} in
      set_task_detail self task_detail
  end.

(** [TaskBase::init] *)
Definition init (self : TaskBase) : M unit :=
  set_task_detail self {| TaskDetail.entry := entry_ self; TaskDetail.node_ids := [] |}.

(** [TaskBase::TaskBase(entry, tasker, context)].  The task id is given to
    the member by its initialiser in the header; here it is an argument. *)
Definition TaskBase_new (task_id : Z) (entry : string) (tasker : option TaskerPtr)
    (context : option Context) : M TaskBase :=
  let self := {| tasker_ := tasker; entry_ := entry; cur_task_ := entry;
                 context_ := context; task_id_ := task_id |} in
  init self;; mret self.

(** The callback details, as the initialiser lists build them. *)
Definition reco_list_cb_detail (self : TaskBase) (list : list string) : json :=
  JObject [("task_id", JNum (task_id self));
           ("name", JString (cur_task_ self));
           ("list", JArray (JString <$> list))].

Definition reco_cb_detail (self : TaskBase) (reco_id : Z) (name : string) : json :=
  JObject [("task_id", JNum (task_id self));
           ("reco_id", JNum reco_id);
           ("name", JString name)].

Definition action_cb_detail (self : TaskBase) (node_id : Z) (name : string) : json :=
  JObject [("task_id", JNum (task_id self));
           ("node_id", JNum node_id);
           ("name", JString name)].

(** [recognizer.recognize(pipeline_data)] for the candidate [name], on the
    recognizer built from [tasker_], the context and the image. *)
Definition recognize (self : TaskBase) (ctx : Context) (image : Mat)
    (name : string) (pipeline_data : PipelineData) : M RecoResult.t :=
  result ← call_ext (Recognizer_recognize (tasker_ self) (get_pipeline_data ctx) image pipeline_data);
  emit (ORecognize name result);;
  mret result.

(** The [for] loop of [run_recognition] together with what follows it. *)
Fixpoint run_recognition_loop (self : TaskBase) (ctx : Context) (image : Mat)
    (current_focus : bool) (list_detail : json) (list : list string) : M RecoResult.t :=
  match list with
  | [] =>
      dbg ← debug_mode;
      when (dbg || current_focus) (notify self MaaMsg_Task_NextList_Failed list_detail);;
      mret RecoResult.empty
  | name :: rest =>
      let pipeline_data := get_pipeline_data ctx name in
      if negb (enabled pipeline_data) then
        write_log LogDebug "Task disabled";;
        run_recognition_loop self ctx image current_focus list_detail rest
      else
        dbg ← debug_mode;
        when (dbg || focus pipeline_data)
          (notify self MaaMsg_Task_Recognition_Starting (reco_cb_detail self 0 name));;
        result ← recognize self ctx image name pipeline_data;
        dbg ← debug_mode;
        when (dbg || focus pipeline_data)
          (notify self
             (match RecoResult.box result with
              | Some _ => MaaMsg_Task_Recognition_Succeeded
              | None => MaaMsg_Task_Recognition_Failed
              end)
             (reco_cb_detail self (RecoResult.reco_id result) name));;
        match RecoResult.box result with
        | None => run_recognition_loop self ctx image current_focus list_detail rest
        | Some _ =>
            write_log LogInfo "Task hit";;
            dbg ← debug_mode;
            when (dbg || current_focus)
              (notify self MaaMsg_Task_NextList_Succeeded list_detail);;
            mret result
        end
  end.

(** [TaskBase::run_recognition] *)
Definition run_recognition (self : TaskBase) (image : Mat) (list : list string) : M RecoResult.t :=
  write_log LogFunc "";;
  match context_ self with
  | None => write_log LogError "context is null";; mret RecoResult.empty
  | Some ctx =>
      if Mat_empty image then
        write_log LogError "Image is empty";; mret RecoResult.empty
      else
        let current_focus := focus (get_pipeline_data ctx (cur_task_ self)) in
        let list_detail := reco_list_cb_detail self list in
        dbg ← debug_mode;
        when (dbg || current_focus)
          (notify self MaaMsg_Task_NextList_Starting list_detail);;
        run_recognition_loop self ctx image current_focus list_detail list
  end.

(** [actuator.run] on the region, the recognition id and the node data,
    for the actuator built from [tasker_] and the context. *)
Definition actuate (self : TaskBase) (ctx : Context) (box : Rect) (reco_id : Z)
    (name : string) (pipeline_data : PipelineData) : M bool :=
  ret ← call_ext (Actuator_run (tasker_ self) (get_pipeline_data ctx) box reco_id pipeline_data);
  emit (OActuate box reco_id name ret);;
  mret ret.

(** [TaskBase::run_action] *)
Definition run_action (self : TaskBase) (reco : RecoResult.t) : M NodeDetail.t :=
  match context_ self with
  | None => write_log LogError "context is null";; mret NodeDetail.empty
  | Some ctx =>
      match RecoResult.box reco with
      | None =>
          write_log LogError "reco box is nullopt, can NOT run";;
          mret NodeDetail.empty
      | Some box =>
          let pipeline_data := get_pipeline_data ctx (RecoResult.name reco) in
          dbg ← debug_mode;
          when (dbg || focus pipeline_data)
            (notify self MaaMsg_Task_Action_Starting
               (action_cb_detail self 0 (RecoResult.name reco)));;
          ret ← actuate self ctx box (RecoResult.reco_id reco) (RecoResult.name reco) pipeline_data;
          node_id ← generate_node_id;
          let result :=
            {| NodeDetail.node_id := node_id;
               NodeDetail.name := RecoResult.name reco;
               NodeDetail.reco_id := RecoResult.reco_id reco;
               NodeDetail.completed := ret |} in
          set_node_detail self (NodeDetail.node_id result) result;;
          dbg ← debug_mode;
          when (dbg || focus pipeline_data)
            (notify self
               (if NodeDetail.completed result then MaaMsg_Task_Action_Succeeded
                else MaaMsg_Task_Action_Failed)
               (action_cb_detail self (NodeDetail.node_id result) (RecoResult.name reco)));;
          mret result
      end
  end.

(** [run_action] called [n] times in a row, each call by its own executor
    on its own recognition result (the executors may or may not be the
    same); the records come back in call order. *)
Fixpoint run_actions (calls : list (TaskBase * RecoResult.t)) : M (list NodeDetail.t) :=
  match calls with
  | [] => mret []
  | (self, reco) :: rest =>
      r ← run_action self reco;
      rs ← run_actions rest;
      mret (r :: rs)
  end.

(** ** Reading a trace *)

(** The recognizer calls of a trace: candidate and returned result. *)
Definition recognizer_calls (tr : list Obs) : list (string * RecoResult.t) :=
  omap (λ o, match o with ORecognize name result => Some (name, result) | _ => None end) tr.

(** The actuator calls of a trace. *)
Definition actuator_calls (tr : list Obs) : list (Rect * Z * string * bool) :=
  omap (λ o, match o with
             | OActuate box reco_id name ret => Some (box, reco_id, name, ret)
             | _ => None
             end) tr.

(** The notifications of a trace. *)
Definition notifications (tr : list Obs) : list (TaskerPtr * Msg * json) :=
  omap (λ o, match o with ONotify t msg detail => Some (t, msg, detail) | _ => None end) tr.

(** The kinds of the notifications of a trace, in order. *)
Definition notification_kinds (tr : list Obs) : list Msg :=
  (λ n, n.1.2) <$> notifications tr.

(** The list-level messages. *)
Definition is_list_msg (msg : Msg) : bool :=
  match msg with
  | MaaMsg_Task_NextList_Starting
  | MaaMsg_Task_NextList_Succeeded
  | MaaMsg_Task_NextList_Failed => true
  | _ => false
  end.

(** An observation that is a list-level notification. *)
Definition is_list_event (o : Obs) : bool :=
  match o with
  | ONotify _ msg _ => is_list_msg msg
  | _ => false
  end.

(** A notification of kind [msg] is among the observations [tr]. *)
Definition emits (msg : Msg) (tr : list Obs) : Prop :=
  ∃ t detail, ONotify t msg detail ∈ tr.

(** What [if (cond) { notify(msg, detail); }] adds to the trace: the event
    when [cond] holds and the tasker is bound, nothing otherwise. *)
Definition notified (self : TaskBase) (cond : bool) (msg : Msg) (detail : json) : list Obs :=
  match tasker_ self with
  | Some t => if cond then [ONotify t msg detail] else []
  | None => []
  end.

(** What evaluating one enabled candidate adds to the trace, given the
    debug mode and what the recognizer returned for it. *)
Definition candidate_obs (self : TaskBase) (ctx : Context) (dbg : bool)
    (call : string * RecoResult.t) : list Obs :=
  let cond := dbg || focus (get_pipeline_data ctx call.1) in
  notified self cond MaaMsg_Task_Recognition_Starting (reco_cb_detail self 0 call.1)
  ++ [ORecognize call.1 call.2]
  ++ notified self cond
       (match RecoResult.box call.2 with
        | Some _ => MaaMsg_Task_Recognition_Succeeded
        | None => MaaMsg_Task_Recognition_Failed
        end)
       (reco_cb_detail self (RecoResult.reco_id call.2) call.1).

(** The recognizer run on the candidates [names] one after the other, from
    the collaborators' state [e]: each candidate with what was returned for
    it, and the state left behind. *)
Fixpoint Recognizer_replay (tasker : option TaskerPtr) (ctx : Context) (image : Mat)
    (names : list string) (e : Ext) : list (string * RecoResult.t) * Ext :=
  match names with
  | [] => ([], e)
  | name :: rest =>
      let rr := Recognizer_recognize tasker (get_pipeline_data ctx) image
                  (get_pipeline_data ctx name) e in
      let tl := Recognizer_replay tasker ctx image rest rr.2 in
      ((name, rr.1) :: tl.1, tl.2)
  end.

(** [selects ctx list calls r]: walking [list] front to back, skipping the
    disabled candidates, [calls] are the candidates asked and the answers
    they got, and [r] is the outcome: the first answer with a region, after
    which nothing is asked, or the empty result when the list runs out. *)
Inductive selects (ctx : Context) : list string → list (string * RecoResult.t) → RecoResult.t → Prop :=
| selects_nil :
    selects ctx [] [] RecoResult.empty
| selects_disabled name rest calls r :
    enabled (get_pipeline_data ctx name) = false →
    selects ctx rest calls r →
    selects ctx (name :: rest) calls r
| selects_miss name rest result calls r :
    enabled (get_pipeline_data ctx name) = true →
    RecoResult.box result = None →
    selects ctx rest calls r →
    selects ctx (name :: rest) ((name, result) :: calls) r
| selects_hit name rest result :
    enabled (get_pipeline_data ctx name) = true →
    is_Some (RecoResult.box result) →
    selects ctx (name :: rest) [(name, result)] result.

(** The cache of the executor's tasker after [set_node_detail]'s writes:
    the record under its id, the id as the latest node of the record's
    name, and the id appended to the task's record (a fresh one with the
    executor's entry when the task has none). *)
Definition cache_with_node (self : TaskBase) (node_id : Z) (detail : NodeDetail.t)
    (c : RuntimeCache.t) : RuntimeCache.t :=
  let c1 := RuntimeCache.set_node_detail node_id detail c in
  let c2 := RuntimeCache.set_latest_node (NodeDetail.name detail) node_id c1 in
  let prior :=
    default {| TaskDetail.entry := entry_ self; TaskDetail.node_ids := [] |}
            (RuntimeCache.get_task_detail (task_id_ self) c2) in
  RuntimeCache.set_task_detail (task_id_ self)
    {| TaskDetail.entry := TaskDetail.entry prior;
       TaskDetail.node_ids := TaskDetail.node_ids prior ++ [node_id] |} c2.

(** The world [set_node_detail] leaves behind. *)
Definition stored (self : TaskBase) (node_id : Z) (detail : NodeDetail.t) (w : World) : World :=
  match tasker_ self with
  | None => add_log [(LogError, "tasker is null")] w
  | Some t => set_cache t (cache_with_node self node_id detail (runtime_cache t w)) w
  end.

(** The message that closes the list: succeeded on a match, failed
    otherwise. *)
Definition list_end_msg (r : RecoResult.t) : Msg :=
  match RecoResult.box r with
  | Some _ => MaaMsg_Task_NextList_Succeeded
  | None => MaaMsg_Task_NextList_Failed
  end.

(** The fields the recognition loop never writes. *)
Definition same_store (w w' : World) : Prop :=
  taskers w' = taskers w ∧
  s_global_node_id w' = s_global_node_id w ∧
  global_debug_mode w' = global_debug_mode w.

(** The precondition of [run_action]: a bound context and a matched
    result. *)
Definition can_run (call : TaskBase * RecoResult.t) : Prop :=
  is_Some (context_ call.1) ∧ is_Some (RecoResult.box call.2).

End Executor.

(** ** A small instance *)

(** Collaborators simple enough to run: an image is its pixel rows, a node
    carries the region its recognition finds (if any) and whether its
    action completes, the recognizer numbers its results from a counter. *)
Module Demo.

Record Node := {
  node_name : string;
  node_enabled : bool;
  node_focus : bool;
  node_region : option Rect;
  node_action_ok : bool
}.

#[export] Instance collaborators : Collaborators := {|
  Mat := list (list Z);
  Mat_empty := λ image, bool_decide (image = []);
  PipelineData := Node;
  enabled := node_enabled;
  focus := node_focus;
  Ext := Z;
  Recognizer_recognize := λ _ _ _ pd e,
    ({| RecoResult.reco_id := e + 1; RecoResult.name := node_name pd;
        RecoResult.box := node_region pd |}, e + 1);
  Actuator_run := λ _ _ _ _ pd e, (node_action_ok pd, e)
|}.

Definition region : Rect :=
  {| rect_x := 10; rect_y := 10; rect_width := 5; rect_height := 5 |}.

(** The nodes of the spec's first-match example: [A] disabled, [B] enabled
    and not matching, [C] enabled and matching at [(10,10,5,5)]; [D] is
    enabled, focused and not matching; every other name resolves to a
    disabled node. *)
Definition pipeline (name : string) : Node :=
  if bool_decide (name = "A") then
    {| node_name := name; node_enabled := false; node_focus := true;
       node_region := Some region; node_action_ok := true |}
  else if bool_decide (name = "B") then
    {| node_name := name; node_enabled := true; node_focus := false;
       node_region := None; node_action_ok := true |}
  else if bool_decide (name = "C") then
    {| node_name := name; node_enabled := true; node_focus := false;
       node_region := Some region; node_action_ok := false |}
  else if bool_decide (name = "D") then
    {| node_name := name; node_enabled := true; node_focus := true;
       node_region := None; node_action_ok := true |}
  else
    {| node_name := name; node_enabled := false; node_focus := false;
       node_region := None; node_action_ok := false |}.

Definition context : Context := {| get_pipeline_data := pipeline |}.

Definition image : Mat := [[0; 1]; [2; 3]].

(** A fresh process: nothing cached, counter at zero. *)
Definition world (debug : bool) : World :=
  {| taskers := ∅; global_debug_mode := debug; s_global_node_id := 0;
     ext := 0; trace := []; log := [] |}.

(** A process whose node counter has two values left before [INT64_MAX]. *)
Definition late_world : World :=
  {| taskers := ∅; global_debug_mode := false; s_global_node_id := INT64_MAX - 1;
     ext := 0; trace := []; log := [] |}.

(** An executor of task 7 entered at [B], on tasker 1. *)
Definition executor : TaskBase :=
  {| tasker_ := Some 1%nat; entry_ := "B"; cur_task_ := "B";
     context_ := Some context; task_id_ := 7 |}.

(** The same executor without a tasker. *)
Definition detached : TaskBase :=
  {| tasker_ := None; entry_ := "B"; cur_task_ := "B";
     context_ := Some context; task_id_ := 7 |}.

(** The same executor without a context. *)
Definition unbound : TaskBase :=
  {| tasker_ := Some 1%nat; entry_ := "B"; cur_task_ := "B";
     context_ := None; task_id_ := 7 |}.

(** A matched result for [C] and an unmatched one. *)
Definition hit : RecoResult.t :=
  {| RecoResult.reco_id := 2; RecoResult.name := "C"; RecoResult.box := Some region |}.

Definition miss : RecoResult.t :=
  {| RecoResult.reco_id := 1; RecoResult.name := "B"; RecoResult.box := None |}.

End Demo.

(** ** The rest of [TaskBase]: accessors, frame capture, pipeline override *)

(** A [ResourceMgr*] and a [ControllerAgent*]: addresses, like
    [TaskerPtr]. *)
Definition ResourcePtr := nat.
Definition ControllerPtr := nat.

(** The collaborators behind the remaining methods, whose code lives in
    other files.  [Tasker_resource] and [Tasker_controller] are the
    tasker's [resource()] and [controller()] (either may be null);
    [ControllerAgent_screencap] is the controller's [screencap()], which
    works on the collaborators' state like the recognizer and the actuator;
    [Mat_default] is the value-initialised [cv::Mat] that [return {}]
    gives; [Context_override_pipeline] is the context's
    [override_pipeline], returning its verdict and the context as patched;
    [Context_create] is [Context::create]. *)
Class Peripherals `{C : Collaborators} := {
  Tasker_resource : TaskerPtr → option ResourcePtr;
  Tasker_controller : TaskerPtr → option ControllerPtr;
  ControllerAgent_screencap : ControllerPtr → Ext → Mat * Ext;
  Mat_default : Mat;
  Context_override_pipeline : json → Context → bool * Context;
  Context_create : Z → option TaskerPtr → option Context
}.

Section Peripheral.
Context `{P : Peripherals}.

(** [TaskBase::tasker] *)
Definition tasker (self : TaskBase) : option TaskerPtr := tasker_ self.

(** [TaskBase::entry] *)
Definition entry (self : TaskBase) : string := entry_ self.

(** [TaskBase::resource] *)
Definition resource (self : TaskBase) : option ResourcePtr :=
  match tasker_ self with
  | Some t => Tasker_resource t
  | None => None
  end.

(** [TaskBase::controller] *)
Definition controller (self : TaskBase) : option ControllerPtr :=
  match tasker_ self with
  | Some t => Tasker_controller t
  | None => None
  end.

(** [TaskBase::screencap] *)
Definition screencap (self : TaskBase) : M Mat :=
  match controller self with
  | None => mret Mat_default
  | Some c => call_ext (ControllerAgent_screencap c)
  end.

(** [TaskBase::override_pipeline]: [context_ && context_->override_pipeline(...)].
    The context is patched in place; the executor that comes back holds the
    patched context.  (The executor record holds its context by value, so
    what other holders of the same context see is outside this model.) *)
Definition override_pipeline (self : TaskBase) (pipeline_override : json) : bool * TaskBase :=
  match context_ self with
  | None => (false, self)
  | Some ctx =>
      let r := Context_override_pipeline pipeline_override ctx in
      (r.1, {| tasker_ := tasker_ self; entry_ := entry_ self; cur_task_ := cur_task_ self;
               context_ := Some r.2; task_id_ := task_id_ self |})
  end.

(** [TaskBase::TaskBase(entry, tasker)]: the context comes from
    [Context::create(task_id_, tasker)]. *)
Definition TaskBase_create (task_id : Z) (entry : string) (tasker : option TaskerPtr) : M TaskBase :=
  TaskBase_new task_id entry tasker (Context_create task_id tasker).

End Peripheral.

(** ** Reading details and call sequences *)

(** The member [key] of a JSON object. *)
Definition json_get (key : string) (j : json) : option json :=
  match j with
  | JObject members => snd <$> List.find (λ m, bool_decide (m.1 = key)) members
  | _ => None
  end.

Section Sequences.
Context `{C : Collaborators}.

(** The ids of the records [rs] returned for those of the calls [calls]
    that satisfy [p], in call order. *)
Definition ids_where (p : TaskBase * RecoResult.t → bool)
    (calls : list (TaskBase * RecoResult.t)) (rs : list NodeDetail.t) : list Z :=
  (λ cr, NodeDetail.node_id cr.2) <$> List.filter (λ cr, p cr.1) (zip calls rs).

(** The call is made by an executor of task [task] on tasker [t]. *)
Definition of_task (t : TaskerPtr) (task : Z) (call : TaskBase * RecoResult.t) : bool :=
  bool_decide (tasker_ call.1 = Some t ∧ task_id_ call.1 = task).

(** The call is made on tasker [t] for a result named [name]. *)
Definition of_name (t : TaskerPtr) (name : string) (call : TaskBase * RecoResult.t) : bool :=
  bool_decide (tasker_ call.1 = Some t ∧ RecoResult.name call.2 = name).

(** The node ids of a task's record, none when the task has no record. *)
Definition history (task : Z) (c : RuntimeCache.t) : list Z :=
  from_option TaskDetail.node_ids [] (RuntimeCache.get_task_detail task c).

End Sequences.

Module DemoDevices.
Import Demo.

(** Tasker 1 has controller 5 and resource 3; no other tasker has either.
    The controller returns a one-pixel frame holding the collaborators'
    counter.  The patch [JString name] disables the node [name]; any
    other patch is refused. *)
Definition capture (c : ControllerPtr) (e : Z) : list (list Z) * Z := ([[e]], e).

Definition disable (patch : json) (ctx : Context (C := Demo.collaborators)) :
    bool * Context (C := Demo.collaborators) :=
  match patch with
  | JString name =>
      (true,
       {| get_pipeline_data := λ n,
            if bool_decide (n = name) then
              {| Demo.node_name := n; Demo.node_enabled := false;
                 Demo.node_focus := Demo.node_focus (get_pipeline_data ctx n);
                 Demo.node_region := Demo.node_region (get_pipeline_data ctx n);
                 Demo.node_action_ok := Demo.node_action_ok (get_pipeline_data ctx n) |}
            else get_pipeline_data ctx n |})
  | _ => (false, ctx)
  end.

#[export] Instance peripherals : @Peripherals Demo.collaborators :=
  @Build_Peripherals Demo.collaborators
    (λ t, if bool_decide (t = 1%nat) then Some 3%nat else None)
    (λ t, if bool_decide (t = 1%nat) then Some 5%nat else None)
    capture
    ([] : list (list Z))
    disable
    (λ _ _, Some Demo.context).

(** An executor of task 7 on tasker 2, which has no controller. *)
Definition blind : TaskBase :=
  {| tasker_ := Some 2%nat; entry_ := "B"; cur_task_ := "B";
     context_ := Some Demo.context; task_id_ := 7 |}.

(** An executor of task 8 on tasker 1. *)
Definition other : TaskBase :=
  {| tasker_ := Some 1%nat; entry_ := "C"; cur_task_ := "C";
     context_ := Some Demo.context; task_id_ := 8 |}.

(** A matched result for [D]. *)
Definition hit_d : RecoResult.t :=
  {| RecoResult.reco_id := 3; RecoResult.name := "D"; RecoResult.box := Some Demo.region |}.

End DemoDevices.

(** * Properties *)

Section Properties.
Context `{C : Collaborators}.

(** ** Running the monad *)

Lemma bind_run {A B} (m : M A) (f : A → M B) (w w1 : World) (a : A) (r : B * World) :
  m w = (a, w1) → f a w1 = r → (m ≫= f) w = r.
Proof. intros Hm Hf. unfold mbind, M_bind. rewrite Hm. exact Hf. Qed.

Lemma add_trace_nil (w : World) : add_trace [] w = w.
Proof. destruct w. unfold add_trace. cbn. by rewrite app_nil_r. Qed.

Lemma when_notify_run (self : TaskBase) (cond : bool) (msg : Msg) (detail : json) (w : World) :
  when cond (notify self msg detail) w = (tt, add_trace (notified self cond msg detail) w).
Proof.
  unfold when, notify, notified, emit.
  destruct cond, (tasker_ self); by rewrite ?add_trace_nil.
Qed.

Lemma set_cache_twice (t : TaskerPtr) (c1 c2 : RuntimeCache.t) (w : World) :
  set_cache t c2 (set_cache t c1 w) = set_cache t c2 w.
Proof. unfold set_cache. cbn. f_equal. apply insert_insert_eq. Qed.

Lemma runtime_cache_set_cache (t : TaskerPtr) (c : RuntimeCache.t) (w : World) :
  runtime_cache t (set_cache t c w) = c.
Proof. unfold runtime_cache, set_cache. cbn. apply lookup_total_insert_eq. Qed.

Lemma set_node_detail_run (self : TaskBase) (node_id : Z) (detail : NodeDetail.t) (w : World) :
  set_node_detail self node_id detail w = (tt, stored self node_id detail w).
Proof.
  unfold set_node_detail, set_task_detail, stored.
  destruct (tasker_ self) as [t|]; [|reflexivity].
  unfold mbind, M_bind, update_cache, read_cache. cbn [fst snd].
  rewrite !runtime_cache_set_cache, !set_cache_twice. reflexivity.
Qed.

Lemma stored_frame (self : TaskBase) (node_id : Z) (detail : NodeDetail.t) (w : World) :
  global_debug_mode (stored self node_id detail w) = global_debug_mode w ∧
  s_global_node_id (stored self node_id detail w) = s_global_node_id w ∧
  ext (stored self node_id detail w) = ext w ∧
  trace (stored self node_id detail w) = trace w.
Proof. unfold stored. by destruct (tasker_ self). Qed.

Lemma actuate_run (self : TaskBase) (ctx : Context) (box : Rect) (reco_id : Z)
    (name : string) (pd : PipelineData) (w : World) :
  let act := Actuator_run (tasker_ self) (get_pipeline_data ctx) box reco_id pd (ext w) in
  actuate self ctx box reco_id name pd w =
  (act.1, add_trace [OActuate box reco_id name act.1] (set_ext act.2 w)).
Proof. reflexivity. Qed.

Lemma recognize_run (self : TaskBase) (ctx : Context) (image : Mat)
    (name : string) (pd : PipelineData) (w : World) :
  let rr := Recognizer_recognize (tasker_ self) (get_pipeline_data ctx) image pd (ext w) in
  recognize self ctx image name pd w =
  (rr.1, add_trace [ORecognize name rr.1] (set_ext rr.2 w)).
Proof. reflexivity. Qed.

(** The world [run_action] leaves behind on a matched result. *)
Lemma run_action_run (self : TaskBase) (ctx : Context) (reco : RecoResult.t) (box : Rect) (w : World) :
  context_ self = Some ctx →
  RecoResult.box reco = Some box →
  let name := RecoResult.name reco in
  let pd := get_pipeline_data ctx name in
  let cond := global_debug_mode w || focus pd in
  let act := Actuator_run (tasker_ self) (get_pipeline_data ctx) box (RecoResult.reco_id reco) pd (ext w) in
  let id := wrap64 (s_global_node_id w + 1) in
  let r := {| NodeDetail.node_id := id; NodeDetail.name := name;
              NodeDetail.reco_id := RecoResult.reco_id reco;
              NodeDetail.completed := act.1 |} in
  run_action self reco w =
  (r,
   add_trace
     (notified self cond
        (if act.1 then MaaMsg_Task_Action_Succeeded else MaaMsg_Task_Action_Failed)
        (action_cb_detail self id name))
     (stored self id r
        (set_s_global_node_id id
           (add_trace [OActuate box (RecoResult.reco_id reco) name act.1]
              (set_ext act.2
                 (add_trace
                    (notified self cond MaaMsg_Task_Action_Starting
                       (action_cb_detail self 0 name))
                    w)))))).
Proof.
  intros Hctx Hbox name pd cond act id r.
  unfold run_action. rewrite Hctx, Hbox.
  eapply bind_run; [reflexivity|].
  eapply bind_run; [apply when_notify_run|].
  eapply bind_run; [apply actuate_run|].
  eapply bind_run; [reflexivity|].
  eapply bind_run; [apply set_node_detail_run|].
  eapply bind_run; [reflexivity|].
  eapply bind_run; [apply when_notify_run|].
  unfold mret, M_ret. f_equal.
  rewrite (proj1 (stored_frame _ _ _ _)). reflexivity.
Qed.

(** ** The recognition loop *)

Lemma loop_nil (self : TaskBase) (ctx : Context) (image : Mat) (cf : bool) (ld : json) (w : World) :
  run_recognition_loop self ctx image cf ld [] w =
  (RecoResult.empty,
   add_trace (notified self (global_debug_mode w || cf) MaaMsg_Task_NextList_Failed ld) w).
Proof.
  cbn [run_recognition_loop].
  eapply bind_run; [reflexivity|].
  eapply bind_run; [apply when_notify_run|].
  reflexivity.
Qed.

Lemma loop_cons_disabled (self : TaskBase) (ctx : Context) (image : Mat) (cf : bool) (ld : json)
    (name : string) (rest : list string) (w : World) :
  enabled (get_pipeline_data ctx name) = false →
  run_recognition_loop self ctx image cf ld (name :: rest) w =
  run_recognition_loop self ctx image cf ld rest (add_log [(LogDebug, "Task disabled")] w).
Proof. intros Hen. cbn [run_recognition_loop]. rewrite Hen. reflexivity. Qed.

Lemma loop_cons_enabled (self : TaskBase) (ctx : Context) (image : Mat) (cf : bool) (ld : json)
    (name : string) (rest : list string) (w : World) :
  enabled (get_pipeline_data ctx name) = true →
  let rr := Recognizer_recognize (tasker_ self) (get_pipeline_data ctx) image
              (get_pipeline_data ctx name) (ext w) in
  let w1 := add_trace (candidate_obs self ctx (global_debug_mode w) (name, rr.1))
              (set_ext rr.2 w) in
  run_recognition_loop self ctx image cf ld (name :: rest) w =
  match RecoResult.box rr.1 with
  | None => run_recognition_loop self ctx image cf ld rest w1
  | Some _ =>
      (rr.1,
       add_trace (notified self (global_debug_mode w || cf) MaaMsg_Task_NextList_Succeeded ld)
         (add_log [(LogInfo, "Task hit")] w1))
  end.
Proof.
  intros Hen rr w1. cbn [run_recognition_loop]. rewrite Hen. cbn [negb].
  eapply bind_run; [reflexivity|].
  eapply bind_run; [apply when_notify_run|].
  eapply bind_run; [apply recognize_run|].
  eapply bind_run; [reflexivity|].
  eapply bind_run; [apply when_notify_run|].
  cbn [ext add_trace set_ext global_debug_mode]. fold rr.
  assert (Hw1 :
    add_trace
      (notified self (global_debug_mode w || focus (get_pipeline_data ctx name))
         match RecoResult.box rr.1 with
         | Some _ => MaaMsg_Task_Recognition_Succeeded
         | None => MaaMsg_Task_Recognition_Failed
         end (reco_cb_detail self (RecoResult.reco_id rr.1) name))
      (add_trace [ORecognize name rr.1]
         (set_ext rr.2
            (add_trace
               (notified self (global_debug_mode w || focus (get_pipeline_data ctx name))
                  MaaMsg_Task_Recognition_Starting (reco_cb_detail self 0 name)) w))) = w1).
  { subst w1. unfold candidate_obs, add_trace, set_ext. cbn. f_equal.
    by rewrite <- !app_assoc. }
  rewrite Hw1. destruct (RecoResult.box rr.1); [|reflexivity].
  eapply bind_run; [reflexivity|].
  eapply bind_run; [reflexivity|].
  eapply bind_run; [apply when_notify_run|].
  reflexivity.
Qed.

(** The loop, whatever the list: which candidates it asks, in which
    order and with which outcome, what it adds to the trace and to the
    log, and that it writes to nothing else. *)
Lemma run_recognition_loop_spec (self : TaskBase) (ctx : Context) (image : Mat)
    (cf : bool) (ld : json) (list : list string) (w : World) :
  ∃ calls lines,
    let rw := run_recognition_loop self ctx image cf ld list w in
    selects ctx list calls rw.1 ∧
    Recognizer_replay (tasker_ self) ctx image calls.*1 (ext w) = (calls, ext rw.2) ∧
    trace rw.2 = trace w
      ++ flat_map (candidate_obs self ctx (global_debug_mode w)) calls
      ++ notified self (global_debug_mode w || cf) (list_end_msg rw.1) ld ∧
    log rw.2 = log w ++ lines ∧
    Forall (λ l, l.1 ≠ LogError) lines ∧
    same_store w rw.2.
Proof.
  revert w. induction list as [|name rest IH]; intros w.
  - exists [], []. cbv zeta. rewrite loop_nil. cbn.
    split_and!; try done; [constructor | by rewrite app_nil_r].
  - destruct (enabled (get_pipeline_data ctx name)) eqn:Hen.
    + rewrite (loop_cons_enabled _ _ _ _ _ _ _ _ Hen). cbv zeta.
      set (rr := Recognizer_recognize _ _ _ _ _).
      destruct (RecoResult.box rr.1) as [box|] eqn:Hbox.
      * exists [(name, rr.1)], [(LogInfo, "Task hit")]. cbn.
        unfold list_end_msg. rewrite Hbox. fold rr.
        split_and!; try done.
        -- by apply selects_hit.
        -- by rewrite app_nil_r, <- !app_assoc.
        -- by repeat constructor.
      * destruct (IH (add_trace (candidate_obs self ctx (global_debug_mode w) (name, rr.1))
                        (set_ext rr.2 w)))
          as (calls & lines & Hsel & Hreplay & Htrace & Hlog & Hlines & Hst1 & Hst2 & Hst3).
        exists ((name, rr.1) :: calls), lines. cbn in *. fold rr.
        split_and!; try done.
        -- by apply selects_miss.
        -- by rewrite Hreplay.
        -- by rewrite Htrace, <- !app_assoc.
    + rewrite (loop_cons_disabled _ _ _ _ _ _ _ _ Hen).
      destruct (IH (add_log [(LogDebug, "Task disabled")] w))
        as (calls & lines & Hsel & Hreplay & Htrace & Hlog & Hlines & Hst1 & Hst2 & Hst3).
      exists calls, ((LogDebug, "Task disabled") :: lines). cbn in *.
      split_and!; try done.
      * by apply selects_disabled.
      * by rewrite Hlog, <- app_assoc.
      * by constructor.
Qed.

Lemma run_recognition_run (self : TaskBase) (ctx : Context) (image : Mat)
    (list : list string) (w : World) :
  context_ self = Some ctx →
  Mat_empty image = false →
  let cf := focus (get_pipeline_data ctx (cur_task_ self)) in
  let ld := reco_list_cb_detail self list in
  run_recognition self image list w =
  run_recognition_loop self ctx image cf ld list
    (add_trace (notified self (global_debug_mode w || cf) MaaMsg_Task_NextList_Starting ld)
       (add_log [(LogFunc, "")] w)).
Proof.
  intros Hctx Himg cf ld. unfold run_recognition. rewrite Hctx, Himg.
  eapply bind_run; [reflexivity|].
  eapply bind_run; [reflexivity|].
  eapply bind_run; [apply when_notify_run|].
  reflexivity.
Qed.

Lemma add_log_twice (l1 l2 : list (LogLevel * string)) (w : World) :
  add_log l2 (add_log l1 w) = add_log (l1 ++ l2) w.
Proof. unfold add_log. cbn. f_equal. by rewrite <- app_assoc. Qed.

Lemma run_recognition_rejected (self : TaskBase) (image : Mat) (list : list string) (w : World) :
  context_ self = None ∨ Mat_empty image = true →
  ∃ text, run_recognition self image list w =
          (RecoResult.empty, add_log [(LogFunc, ""); (LogError, text)] w).
Proof.
  intros Hbad. unfold run_recognition.
  destruct (context_ self) as [ctx|].
  - destruct Hbad as [?|Himg]; [done|]. rewrite Himg.
    exists "Image is empty".
    eapply bind_run; [reflexivity|].
    eapply bind_run; [reflexivity|].
    unfold mret, M_ret. by rewrite add_log_twice.
  - exists "context is null".
    eapply bind_run; [reflexivity|].
    eapply bind_run; [reflexivity|].
    unfold mret, M_ret. by rewrite add_log_twice.
Qed.

(** ** What [selects] says about the list *)

Lemma selects_cases (ctx : Context) (candidates : list string)
    (calls : list (string * RecoResult.t)) (r : RecoResult.t) :
  selects ctx candidates calls r →
  let on := λ name, enabled (get_pipeline_data ctx name) in
  (∃ pre name post misses,
     candidates = pre ++ name :: post ∧
     calls = misses ++ [(name, r)] ∧
     misses.*1 = List.filter on pre ∧
     Forall (λ c, RecoResult.box c.2 = None) misses ∧
     on name = true ∧
     is_Some (RecoResult.box r))
  ∨ (calls.*1 = List.filter on candidates ∧
     Forall (λ c, RecoResult.box c.2 = None) calls ∧
     r = RecoResult.empty).
Proof.
  intros Hsel on. induction Hsel as
    [ | name rest calls r Hen Hsel IH | name rest result calls r Hen Hbox Hsel IH
      | name rest result Hen Hbox ].
  - right. by split_and!.
  - destruct IH as [(pre & n & post & misses & -> & -> & Hm & Hf & Hon & Hr) | (Hc & Hf & ->)].
    + left. exists (name :: pre), n, post, misses. cbn. subst on. cbn. rewrite Hen.
      by split_and!.
    + right. cbn. subst on. cbn. rewrite Hen. by split_and!.
  - destruct IH as [(pre & n & post & misses & -> & -> & Hm & Hf & Hon & Hr) | (Hc & Hf & ->)].
    + left. exists (name :: pre), n, post, ((name, result) :: misses). cbn. subst on. cbn.
      rewrite Hen. split_and!; try done; [by f_equal | by constructor].
    + right. cbn. subst on. cbn. rewrite Hen. split_and!; try done; [by f_equal | by constructor].
  - left. exists [], name, rest, []. by split_and!.
Qed.

(** ** Reading the trace of a call *)

Lemma recognizer_calls_notified (self : TaskBase) (cond : bool) (msg : Msg) (detail : json) :
  recognizer_calls (notified self cond msg detail) = [].
Proof. unfold notified. by destruct (tasker_ self), cond. Qed.

Lemma recognizer_calls_candidates (self : TaskBase) (ctx : Context) (dbg : bool)
    (calls : list (string * RecoResult.t)) :
  recognizer_calls (flat_map (candidate_obs self ctx dbg) calls) = calls.
Proof.
  induction calls as [|[name result] calls IH]; [done|].
  cbn [flat_map]. unfold recognizer_calls in *. rewrite omap_app, IH.
  unfold candidate_obs. rewrite !omap_app.
  fold (recognizer_calls (notified self (dbg || focus (get_pipeline_data ctx (name, result).1))
          MaaMsg_Task_Recognition_Starting (reco_cb_detail self 0 (name, result).1))).
  rewrite recognizer_calls_notified.
  match goal with |- context [omap ?f (notified ?s ?c ?m ?d)] =>
    change (omap f (notified s c m d)) with (recognizer_calls (notified s c m d)) end.
  by rewrite recognizer_calls_notified.
Qed.

(** [notified] read as a condition: the event is in the trace exactly when
    the tasker is bound and the tested condition holds. *)
Lemma notified_iff (self : TaskBase) (cond : bool) (msg : Msg) (detail : json) (o : Obs) :
  o ∈ notified self cond msg detail ↔
  ∃ t, tasker_ self = Some t ∧ cond = true ∧ o = ONotify t msg detail.
Proof.
  unfold notified. destruct (tasker_ self) as [t|], cond; split.
  - intros Hin. apply list_elem_of_singleton in Hin. by exists t.
  - intros (t' & [= ->] & _ & ->). by apply list_elem_of_singleton.
  - intros Hin. by apply elem_of_nil in Hin.
  - by intros (t' & _ & ? & _).
  - intros Hin. by apply elem_of_nil in Hin.
  - by intros (t' & ? & _).
  - intros Hin. by apply elem_of_nil in Hin.
  - by intros (t' & ? & _).
Qed.

Lemma list_events_notified (self : TaskBase) (cond : bool) (msg : Msg) (detail : json) :
  is_list_msg msg = false →
  Forall (λ o, is_list_event o = false) (notified self cond msg detail).
Proof. intros Hmsg. unfold notified. destruct (tasker_ self), cond; by repeat constructor. Qed.

Lemma list_events_candidates (self : TaskBase) (ctx : Context) (dbg : bool)
    (calls : list (string * RecoResult.t)) :
  Forall (λ o, is_list_event o = false) (flat_map (candidate_obs self ctx dbg) calls).
Proof.
  induction calls as [|[name result] calls IH]; [constructor|].
  cbn [flat_map]. apply Forall_app. split; [|done].
  unfold candidate_obs. rewrite !Forall_app. split_and!.
  - by apply list_events_notified.
  - by repeat constructor.
  - apply list_events_notified. by destruct (RecoResult.box _).
Qed.

(** ** The effects of [run_action] *)

Lemma run_action_rejected (self : TaskBase) (reco : RecoResult.t) (w : World) :
  context_ self = None ∨ RecoResult.box reco = None →
  ∃ text, run_action self reco w = (NodeDetail.empty, add_log [(LogError, text)] w).
Proof.
  intros Hbad. unfold run_action.
  destruct (context_ self) as [ctx|]; [|by eexists].
  destruct Hbad as [?|Hbox]; [done|]. rewrite Hbox. by eexists.
Qed.

Lemma run_action_effects (self : TaskBase) (ctx : Context) (reco : RecoResult.t)
    (box : Rect) (w : World) :
  context_ self = Some ctx →
  RecoResult.box reco = Some box →
  let name := RecoResult.name reco in
  let pd := get_pipeline_data ctx name in
  let cond := global_debug_mode w || focus pd in
  let act := Actuator_run (tasker_ self) (get_pipeline_data ctx) box
               (RecoResult.reco_id reco) pd (ext w) in
  let id := wrap64 (s_global_node_id w + 1) in
  let r := {| NodeDetail.node_id := id; NodeDetail.name := name;
              NodeDetail.reco_id := RecoResult.reco_id reco;
              NodeDetail.completed := act.1 |} in
  let rw := run_action self reco w in
  rw.1 = r ∧
  trace rw.2 = trace w
    ++ notified self cond MaaMsg_Task_Action_Starting (action_cb_detail self 0 name)
    ++ [OActuate box (RecoResult.reco_id reco) name act.1]
    ++ notified self cond
         (if act.1 then MaaMsg_Task_Action_Succeeded else MaaMsg_Task_Action_Failed)
         (action_cb_detail self id name) ∧
  ext rw.2 = act.2 ∧
  s_global_node_id rw.2 = id ∧
  global_debug_mode rw.2 = global_debug_mode w ∧
  match tasker_ self with
  | None => taskers rw.2 = taskers w ∧ log rw.2 = log w ++ [(LogError, "tasker is null")]
  | Some t =>
      log rw.2 = log w ∧
      taskers rw.2 = <[t := cache_with_node self id r (runtime_cache t w)]> (taskers w)
  end.
Proof.
  intros Hctx Hbox name pd cond act id r rw. subst rw.
  rewrite (run_action_run _ _ _ _ _ Hctx Hbox). cbn [fst snd].
  fold name pd cond act id r.
  cbn [trace add_trace ext s_global_node_id global_debug_mode taskers log].
  destruct (stored_frame self id r
              (set_s_global_node_id id
                 (add_trace [OActuate box (RecoResult.reco_id reco) name act.1]
                    (set_ext act.2
                       (add_trace
                          (notified self cond MaaMsg_Task_Action_Starting
                             (action_cb_detail self 0 name)) w)))))
    as (Hdbg & Hid & Hext & Htrace).
  rewrite Hdbg, Hid, Hext, Htrace. cbn.
  split_and!; try done.
  - by rewrite <- !app_assoc.
  - unfold stored. by destruct (tasker_ self).
Qed.

Lemma cache_with_node_lookups (self : TaskBase) (node_id : Z) (detail : NodeDetail.t)
    (c : RuntimeCache.t) :
  let c' := cache_with_node self node_id detail c in
  let prior :=
    default {| TaskDetail.entry := entry_ self; TaskDetail.node_ids := [] |}
            (RuntimeCache.get_task_detail (task_id_ self) c) in
  RuntimeCache.get_node_detail node_id c' = Some detail ∧
  RuntimeCache.get_latest_node (NodeDetail.name detail) c' = Some node_id ∧
  RuntimeCache.get_task_detail (task_id_ self) c' =
    Some {| TaskDetail.entry := TaskDetail.entry prior;
            TaskDetail.node_ids := TaskDetail.node_ids prior ++ [node_id] |}.
Proof.
  unfold cache_with_node, RuntimeCache.get_node_detail, RuntimeCache.get_latest_node,
    RuntimeCache.get_task_detail. cbn.
  by rewrite !lookup_insert_eq.
Qed.

Lemma runtime_cache_stored (t : TaskerPtr) (c : RuntimeCache.t) (w w' : World) :
  taskers w' = <[t := c]> (taskers w) → runtime_cache t w' = c.
Proof. intros Hw. unfold runtime_cache. rewrite Hw. apply lookup_total_insert_eq. Qed.

Lemma run_recognition_taskers (self : TaskBase) (image : Mat) (candidates : list string)
    (w : World) :
  taskers (run_recognition self image candidates w).2 = taskers w.
Proof.
  destruct (context_ self) as [ctx|] eqn:Hctx;
    [destruct (Mat_empty image) eqn:Himg|].
  - destruct (run_recognition_rejected self image candidates w) as [text ->]; [by right|done].
  - rewrite (run_recognition_run _ _ _ _ _ Hctx Himg).
    edestruct run_recognition_loop_spec as (calls & lines & _ & _ & _ & _ & _ & Hst & _).
    exact Hst.
  - destruct (run_recognition_rejected self image candidates w) as [text ->]; [by left|done].
Qed.

(** ** 64-bit arithmetic *)

Lemma wrap64_in_range (z : Z) : INT64_MIN ≤ z ≤ INT64_MAX → wrap64 z = z.
Proof.
  unfold wrap64, INT64_MIN, INT64_MAX. intros Hz.
  rewrite Z.mod_small by lia. lia.
Qed.

Lemma wrap64_succ_ne (z : Z) : wrap64 (z + 1) ≠ z.
Proof.
  unfold wrap64. intros Heq.
  pose proof (Z.div_mod (z + 1 + 2 ^ 63) (2 ^ 64)) as Hdm.
  lia.
Qed.

Lemma seqZ_increasing (n : nat) (m : Z) : StronglySorted Z.lt (seqZ m (Z.of_nat n)).
Proof.
  revert m. induction n as [|n IH]; intros m.
  - rewrite seqZ_nil by lia. constructor.
  - rewrite seqZ_cons by lia.
    replace (Z.pred (Z.of_nat (S n))) with (Z.of_nat n) by lia.
    constructor; [apply IH|].
    apply Forall_forall. intros k Hk. apply elem_of_seqZ in Hk. lia.
Qed.

Lemma run_actions_cons (self : TaskBase) (reco : RecoResult.t)
    (rest : list (TaskBase * RecoResult.t)) (w : World) :
  let rw := run_action self reco w in
  let rws := run_actions rest rw.2 in
  run_actions ((self, reco) :: rest) w = (rw.1 :: rws.1, rws.2).
Proof. reflexivity. Qed.

Lemma run_actions_ids (calls : list (TaskBase * RecoResult.t)) (w : World) :
  Forall can_run calls →
  INT64_MIN ≤ s_global_node_id w →
  s_global_node_id w + Z.of_nat (length calls) ≤ INT64_MAX →
  NodeDetail.node_id <$> (run_actions calls w).1
    = seqZ (s_global_node_id w + 1) (Z.of_nat (length calls)) ∧
  s_global_node_id (run_actions calls w).2 = s_global_node_id w + Z.of_nat (length calls).
Proof.
  revert w. induction calls as [|[self reco] rest IH]; intros w Hcan Hlo Hhi.
  - cbn. split; [done | lia].
  - apply Forall_cons in Hcan as [[[ctx Hctx] [box Hbox]] Hcan]. cbn in Hctx, Hbox.
    destruct (run_action_effects self ctx reco box w Hctx Hbox)
      as (Hr & _ & _ & Hid & _).
    cbn [length] in Hhi.
    rewrite wrap64_in_range in Hid, Hr by (unfold INT64_MIN, INT64_MAX in *; lia).
    destruct (IH (run_action self reco w).2 Hcan) as [Hids Hcount];
      [rewrite Hid; lia | rewrite Hid; lia |].
    rewrite run_actions_cons. cbn [fst snd]. rewrite fmap_cons, Hids, Hcount, Hid, Hr.
    cbn [NodeDetail.node_id length]. split; [|lia].
    rewrite (seqZ_cons _ (Z.of_nat (S (length rest)))) by lia.
    do 2 f_equal; lia.
Qed.

Lemma wrap64_add_wrap64 (a b : Z) : wrap64 (wrap64 a + b) = wrap64 (a + b).
Proof.
  unfold wrap64. f_equal.
  replace ((a + 2 ^ 63) mod 2 ^ 64 - 2 ^ 63 + b + 2 ^ 63)
    with ((a + 2 ^ 63) mod 2 ^ 64 + b) by lia.
  rewrite Z.add_mod_idemp_l by lia. f_equal. lia.
Qed.

(** The ids of any number of calls in a row: the counter's successors,
    each wrapped into the 64-bit range. *)
Lemma run_actions_ids_wrap (calls : list (TaskBase * RecoResult.t)) (w : World) :
  Forall can_run calls →
  NodeDetail.node_id <$> (run_actions calls w).1
    = (λ i, wrap64 (s_global_node_id w + i)) <$> seqZ 1 (Z.of_nat (length calls)).
Proof.
  revert w. induction calls as [|[self reco] rest IH]; intros w Hcan; [done|].
  apply Forall_cons in Hcan as [[[ctx Hctx] [box Hbox]] Hcan]. cbn in Hctx, Hbox.
  destruct (run_action_effects self ctx reco box w Hctx Hbox)
    as (Hr & _ & _ & Hid & _).
  rewrite run_actions_cons. cbn [fst snd]. rewrite fmap_cons, (IH _ Hcan), Hid, Hr.
  cbn [NodeDetail.node_id length].
  rewrite (seqZ_cons 1 (Z.of_nat (S (length rest)))) by lia.
  rewrite fmap_cons. f_equal.
  replace (Z.pred (Z.of_nat (S (length rest)))) with (Z.of_nat (length rest)) by lia.
  replace (Z.succ 1) with (1 + 1) by lia.
  rewrite <- (fmap_add_seqZ 1 1), <- list_fmap_compose.
  apply list_fmap_ext. intros _ i _. cbn.
  rewrite wrap64_add_wrap64. f_equal. lia.
Qed.

(** A process that makes the same matched call over and over: the first
    id follows the counter, and the call that would take the counter past
    [INT64_MAX] returns [INT64_MIN]. *)
Lemma run_actions_wrap_around (self : TaskBase) (reco : RecoResult.t) (w : World) (n : nat) :
  can_run (self, reco) →
  s_global_node_id w + Z.of_nat n = INT64_MAX →
  let ids := NodeDetail.node_id <$> (run_actions (replicate (S n) (self, reco)) w).1 in
  ids !! n = Some INT64_MIN.
Proof.
  intros Hcan Hn ids. subst ids.
  rewrite run_actions_ids_wrap by (by apply Forall_replicate).
  rewrite length_replicate, list_lookup_fmap, lookup_seqZ_lt by lia.
  cbn [fmap option_fmap option_map]. f_equal.
  replace (s_global_node_id w + (1 + Z.of_nat n)) with (INT64_MAX + 1) by lia.
  reflexivity.
Qed.

(** * The claims *)

(** C1.  On a non-empty frame and with a bound context, [run_recognition]
    asks the recognizer about the enabled candidates in list order, and
    about nothing else: either some candidate [name] at a position of the
    list is enabled and its call returns a region, the calls made are the
    enabled candidates before that position followed by [name], none of
    the earlier calls returned a region, and the result of the call on
    [name] is what is returned; or every enabled candidate of the list is
    asked, none returned a region, and the empty result is returned.  The
    calls are the recognizer run on exactly those candidates from the state
    it was in. *)
Theorem run_recognition_first_enabled_match (self : TaskBase) (ctx : Context) (image : Mat)
    (candidates : list string) (w : World) :
  context_ self = Some ctx →
  Mat_empty image = false →
  let rw := run_recognition self image candidates w in
  let on := λ name, enabled (get_pipeline_data ctx name) in
  ∃ calls,
    recognizer_calls (trace rw.2) = recognizer_calls (trace w) ++ calls ∧
    Recognizer_replay (tasker_ self) ctx image calls.*1 (ext w) = (calls, ext rw.2) ∧
    ((∃ pre name post misses,
        candidates = pre ++ name :: post ∧
        calls = misses ++ [(name, rw.1)] ∧
        misses.*1 = List.filter on pre ∧
        Forall (λ c, RecoResult.box c.2 = None) misses ∧
        on name = true ∧
        is_Some (RecoResult.box rw.1))
     ∨ (calls.*1 = List.filter on candidates ∧
        Forall (λ c, RecoResult.box c.2 = None) calls ∧
        rw.1 = RecoResult.empty)).
Proof.
  intros Hctx Himg rw on. subst rw.
  rewrite (run_recognition_run _ _ _ _ _ Hctx Himg).
  edestruct run_recognition_loop_spec
    as (calls & lines & Hsel & Hreplay & Htrace & _ & _ & _).
  exists calls. split_and!.
  - rewrite Htrace. cbn [trace add_trace add_log].
    unfold recognizer_calls. rewrite !omap_app.
    fold recognizer_calls. rewrite !recognizer_calls_notified.
    by rewrite recognizer_calls_candidates, !app_nil_r.
  - exact Hreplay.
  - by apply selects_cases.
Qed.

(** C2.  With no bound context, or on an empty frame, [run_recognition]
    returns the empty result and leaves the trace as it was (no recognizer
    call, no notification of any kind), like the collaborators' state, the
    caches and the node counter; the log gains the entry line and one
    error line.  The function is total: nothing but a value comes back. *)
Theorem run_recognition_guard (self : TaskBase) (image : Mat) (candidates : list string)
    (w : World) :
  context_ self = None ∨ Mat_empty image = true →
  let rw := run_recognition self image candidates w in
  rw.1 = RecoResult.empty ∧
  trace rw.2 = trace w ∧
  ext rw.2 = ext w ∧
  same_store w rw.2 ∧
  ∃ text, log rw.2 = log w ++ [(LogFunc, ""); (LogError, text)].
Proof.
  intros Hbad rw. subst rw.
  destruct (run_recognition_rejected self image candidates w Hbad) as [text ->].
  split_and!; try done. by exists text.
Qed.

(** C3.  On a result without a region, [run_action] returns the empty
    record and leaves the trace (no actuator call), the collaborators'
    state, the node counter and every runtime cache as they were; the log
    gains one error line. *)
Theorem run_action_unmatched (self : TaskBase) (reco : RecoResult.t) (w : World) :
  RecoResult.box reco = None →
  let rw := run_action self reco w in
  rw.1 = NodeDetail.empty ∧
  trace rw.2 = trace w ∧
  ext rw.2 = ext w ∧
  s_global_node_id rw.2 = s_global_node_id w ∧
  taskers rw.2 = taskers w ∧
  ∃ text, log rw.2 = log w ++ [(LogError, text)].
Proof.
  intros Hbox rw. subst rw.
  destruct (run_action_rejected self reco w (or_intror Hbox)) as [text ->].
  split_and!; try done. by exists text.
Qed.

(** C4, as amended.  On a matched result and with a bound context,
    [run_action] calls the actuator once, takes the next value of the node
    counter (never the value the counter had) and returns the record made
    of that id, the matched name, the recognition id and the actuator's
    boolean, whatever that boolean is.  The record is stored under its id
    in the cache of the executor's tasker when there is one; with a null
    tasker no cache is written. *)
Theorem run_action_allocates_and_records (self : TaskBase) (ctx : Context)
    (reco : RecoResult.t) (box : Rect) (w : World) :
  context_ self = Some ctx →
  RecoResult.box reco = Some box →
  let rw := run_action self reco w in
  let act := Actuator_run (tasker_ self) (get_pipeline_data ctx) box
               (RecoResult.reco_id reco)
               (get_pipeline_data ctx (RecoResult.name reco)) (ext w) in
  rw.1 = {| NodeDetail.node_id := wrap64 (s_global_node_id w + 1);
            NodeDetail.name := RecoResult.name reco;
            NodeDetail.reco_id := RecoResult.reco_id reco;
            NodeDetail.completed := act.1 |} ∧
  s_global_node_id rw.2 = NodeDetail.node_id rw.1 ∧
  NodeDetail.node_id rw.1 ≠ s_global_node_id w ∧
  actuator_calls (trace rw.2) =
    actuator_calls (trace w)
    ++ [(box, RecoResult.reco_id reco, RecoResult.name reco, act.1)] ∧
  match tasker_ self with
  | Some t =>
      RuntimeCache.get_node_detail (NodeDetail.node_id rw.1) (runtime_cache t rw.2)
      = Some rw.1
  | None => taskers rw.2 = taskers w
  end.
Proof.
  intros Hctx Hbox rw act. subst rw.
  destruct (run_action_effects self ctx reco box w Hctx Hbox)
    as (Hr & Htrace & _ & Hid & _ & Hstore).
  rewrite Hr, Hid, Htrace. cbn [NodeDetail.node_id]. split_and!; try done.
  - apply wrap64_succ_ne.
  - unfold actuator_calls, notified. rewrite !omap_app.
    destruct (tasker_ self), (global_debug_mode w || _); cbn; by rewrite ?app_nil_r.
  - destruct (tasker_ self) as [t|]; [|by destruct Hstore].
    destruct Hstore as [_ Hst]. rewrite (runtime_cache_stored _ _ _ _ Hst).
    match goal with |- context [cache_with_node ?s ?i ?d ?c] =>
      destruct (cache_with_node_lookups s i d c) as (Hnode & _) end.
    exact Hnode.
Qed.

(** C5.  A [run_action] that goes through (bound context, matched result,
    bound tasker) leaves the new record under its id and, in the same
    call, the task's record with that id appended: the node ids are the
    ones the task had (none when it had no record) followed by the new id,
    and the entry is kept.  [run_recognition] writes to no cache, so
    the history only ever grows at its end. *)
Theorem run_action_appends_history (self : TaskBase) (ctx : Context)
    (reco : RecoResult.t) (box : Rect) (t : TaskerPtr) (w : World) :
  context_ self = Some ctx →
  RecoResult.box reco = Some box →
  tasker_ self = Some t →
  let rw := run_action self reco w in
  let prior :=
    default {| TaskDetail.entry := entry_ self; TaskDetail.node_ids := [] |}
            (RuntimeCache.get_task_detail (task_id_ self) (runtime_cache t w)) in
  RuntimeCache.get_node_detail (NodeDetail.node_id rw.1) (runtime_cache t rw.2)
    = Some rw.1 ∧
  RuntimeCache.get_task_detail (task_id_ self) (runtime_cache t rw.2)
    = Some {| TaskDetail.entry := TaskDetail.entry prior;
              TaskDetail.node_ids := TaskDetail.node_ids prior ++ [NodeDetail.node_id rw.1] |} ∧
  ∀ image candidates,
    taskers (run_recognition self image candidates w).2 = taskers w.
Proof.
  intros Hctx Hbox Ht rw prior. subst rw.
  destruct (run_action_effects self ctx reco box w Hctx Hbox)
    as (Hr & _ & _ & _ & _ & Hstore).
  rewrite Ht in Hstore, Hr. destruct Hstore as [_ Hst].
  rewrite (runtime_cache_stored _ _ _ _ Hst), Hr. cbn [NodeDetail.node_id].
  match goal with |- context [cache_with_node ?s ?i ?d ?c] =>
    destruct (cache_with_node_lookups s i d c) as (Hnode & _ & Htask) end.
  split_and!; [exact Hnode | exact Htask |].
  intros image candidates. apply run_recognition_taskers.
Qed.

(** C6, as amended.  With a bound context, the trace of a call is the old
    trace followed by exactly these observations.  For [run_recognition]
    on a non-empty frame: the list-level opening, then for each candidate
    asked [candidate_obs], that is the recognizer call framed by
    Recognition.Starting with recognition id 0 and
    Recognition.Succeeded/Failed with the id of the returned result, both
    present when the tasker is bound and debug mode is on or the
    candidate's own focus flag is set, and both absent otherwise, then the
    list-level closing.  For [run_action] on a matched result: the
    actuator call framed by Action.Starting with node id 0 and
    Action.Succeeded/Failed with the allocated node id, under the same
    condition on the matched node.  ([notified] is the event if the tasker
    is bound and the condition holds, and nothing otherwise: lemma
    [notified_iff].) *)
Theorem node_events_emitted_iff (self : TaskBase) (ctx : Context) (image : Mat)
    (candidates : list string) (reco : RecoResult.t) (w : World) :
  context_ self = Some ctx →
  (Mat_empty image = false →
   let rw := run_recognition self image candidates w in
   let dbg := global_debug_mode w in
   let cf := focus (get_pipeline_data ctx (cur_task_ self)) in
   let ld := reco_list_cb_detail self candidates in
   ∃ calls,
     recognizer_calls (trace rw.2) = recognizer_calls (trace w) ++ calls ∧
     trace rw.2 = trace w
       ++ notified self (dbg || cf) MaaMsg_Task_NextList_Starting ld
       ++ flat_map (candidate_obs self ctx dbg) calls
       ++ notified self (dbg || cf) (list_end_msg rw.1) ld)
  ∧ (∀ box, RecoResult.box reco = Some box →
     let rw := run_action self reco w in
     let name := RecoResult.name reco in
     let cond := global_debug_mode w || focus (get_pipeline_data ctx name) in
     trace rw.2 = trace w
       ++ notified self cond MaaMsg_Task_Action_Starting (action_cb_detail self 0 name)
       ++ [OActuate box (RecoResult.reco_id reco) name (NodeDetail.completed rw.1)]
       ++ notified self cond
            (if NodeDetail.completed rw.1 then MaaMsg_Task_Action_Succeeded
             else MaaMsg_Task_Action_Failed)
            (action_cb_detail self (NodeDetail.node_id rw.1) name)).
Proof.
  intros Hctx. split.
  - intros Himg rw dbg cf ld. subst rw.
    rewrite (run_recognition_run _ _ _ _ _ Hctx Himg).
    edestruct run_recognition_loop_spec
      as (calls & lines & _ & _ & Htrace & _ & _ & _).
    exists calls. rewrite Htrace. cbn [trace add_trace add_log global_debug_mode].
    fold dbg cf ld. split; [|by rewrite <- !app_assoc].
    unfold recognizer_calls. rewrite !omap_app.
    fold recognizer_calls. rewrite !recognizer_calls_notified.
    by rewrite recognizer_calls_candidates, !app_nil_r.
  - intros box Hbox rw name cond. subst rw.
    destruct (run_action_effects self ctx reco box w Hctx Hbox)
      as (Hr & Htrace & _).
    by rewrite Htrace, Hr.
Qed.

(** C7, as amended.  [n] calls of [run_action] in a row, by whichever
    executors, each on a matched result and with a bound context, started
    when the counter [c] is an [int64_t] value with [c + n] not above
    [INT64_MAX]: the ids returned are [c + 1], ..., [c + n] in call order,
    so they are strictly increasing, pairwise distinct and all above [c],
    and the counter ends at [c + n]. *)
Theorem node_ids_increase_below_int64_max (calls : list (TaskBase * RecoResult.t))
    (w : World) :
  Forall can_run calls →
  INT64_MIN ≤ s_global_node_id w →
  s_global_node_id w + Z.of_nat (length calls) ≤ INT64_MAX →
  let rw := run_actions calls w in
  let ids := NodeDetail.node_id <$> rw.1 in
  ids = seqZ (s_global_node_id w + 1) (Z.of_nat (length calls)) ∧
  s_global_node_id rw.2 = s_global_node_id w + Z.of_nat (length calls) ∧
  StronglySorted Z.lt ids ∧
  NoDup ids ∧
  Forall (λ id, s_global_node_id w < id) ids.
Proof.
  intros Hcan Hlo Hhi rw ids. subst rw ids.
  destruct (run_actions_ids calls w Hcan Hlo Hhi) as [Hids Hcount].
  rewrite Hids. split_and!; try done.
  - apply seqZ_increasing.
  - apply NoDup_seqZ.
  - apply Forall_forall. intros id Hid. apply elem_of_seqZ in Hid. lia.
Qed.

(** C8.  On a non-empty frame and with a bound context, what
    [run_recognition] adds to the trace is the list-level opening, then
    what evaluating the candidates asked adds ([candidate_obs] for each,
    none of it a list-level notification), then the list-level closing.
    The candidates asked, [calls], are the recognizer run from the state
    it was in, and they decide the outcome.  Either some candidate of the
    list is enabled and its call returns a region, no enabled candidate
    before it did, nothing after it is asked, that call's result is what is
    returned, and the closing is NextList.Succeeded.  Or every enabled
    candidate of the list is asked, none returns a region, the empty
    result is returned, and the closing is NextList.Failed.  The closing
    is one notification at most: it is there, as the last thing of the
    call, when the tasker is bound and debug mode is on or the focus flag
    of [cur_task_] is set.  So NextList.Succeeded is only emitted on a
    match, NextList.Failed only on the empty result, and never both. *)
Theorem next_list_outcome_exclusive (self : TaskBase) (ctx : Context) (image : Mat)
    (candidates : list string) (w : World) :
  context_ self = Some ctx →
  Mat_empty image = false →
  let rw := run_recognition self image candidates w in
  let cond := global_debug_mode w || focus (get_pipeline_data ctx (cur_task_ self)) in
  let ld := reco_list_cb_detail self candidates in
  let on := λ name, enabled (get_pipeline_data ctx name) in
  ∃ new mid calls,
    trace rw.2 = trace w ++ new ∧
    new = notified self cond MaaMsg_Task_NextList_Starting ld
          ++ mid
          ++ notified self cond (list_end_msg rw.1) ld ∧
    mid = flat_map (candidate_obs self ctx (global_debug_mode w)) calls ∧
    recognizer_calls new = calls ∧
    Recognizer_replay (tasker_ self) ctx image calls.*1 (ext w) = (calls, ext rw.2) ∧
    ((∃ pre name post misses,
        candidates = pre ++ name :: post ∧
        calls = misses ++ [(name, rw.1)] ∧
        misses.*1 = List.filter on pre ∧
        Forall (λ c, RecoResult.box c.2 = None) misses ∧
        on name = true ∧
        is_Some (RecoResult.box rw.1) ∧
        list_end_msg rw.1 = MaaMsg_Task_NextList_Succeeded)
     ∨ (calls.*1 = List.filter on candidates ∧
        Forall (λ c, RecoResult.box c.2 = None) calls ∧
        rw.1 = RecoResult.empty ∧
        list_end_msg rw.1 = MaaMsg_Task_NextList_Failed)) ∧
    (∀ t, tasker_ self = Some t → cond = true →
       last new = Some (ONotify t (list_end_msg rw.1) ld)) ∧
    Forall (λ o, is_list_event o = false) mid ∧
    (RecoResult.box rw.1 = None → rw.1 = RecoResult.empty) ∧
    (emits MaaMsg_Task_NextList_Succeeded new → is_Some (RecoResult.box rw.1)) ∧
    (emits MaaMsg_Task_NextList_Failed new → rw.1 = RecoResult.empty) ∧
    ¬ (emits MaaMsg_Task_NextList_Succeeded new ∧ emits MaaMsg_Task_NextList_Failed new).
Proof.
  intros Hctx Himg rw cond ld on. subst rw.
  rewrite (run_recognition_run _ _ _ _ _ Hctx Himg).
  fold ld.
  match goal with |- context [run_recognition_loop ?s ?c ?i ?cf ?d ?l ?w0] =>
    destruct (run_recognition_loop_spec s c i cf d l w0)
      as (calls & lines & Hsel & Hreplay & Htrace & _ & _ & _)
  end.
  cbn [trace add_trace add_log global_debug_mode ext] in Htrace, Hreplay.
  fold cond in Htrace.
  set (r := (run_recognition_loop _ _ _ _ _ _ _).1) in *.
  pose proof (selects_cases ctx candidates calls r Hsel) as Hcases. cbv zeta in Hcases.
  assert (Hempty : RecoResult.box r = None → r = RecoResult.empty).
  { intros Hnone.
    destruct Hcases as [(_ & _ & _ & _ & _ & _ & _ & _ & _ & Hsome) | (_ & _ & Hr)]; [|done].
    rewrite Hnone in Hsome. by destruct Hsome. }
  assert (Hends : ∀ msg, msg ≠ MaaMsg_Task_NextList_Starting → is_list_msg msg = true →
            emits msg (notified self cond MaaMsg_Task_NextList_Starting ld
                       ++ flat_map (candidate_obs self ctx (global_debug_mode w)) calls
                       ++ notified self cond (list_end_msg r) ld) →
            msg = list_end_msg r).
  { intros msg Hne Hlist (t & d & Hin).
    rewrite !elem_of_app in Hin. destruct Hin as [Hin | [Hin | Hin]].
    - unfold notified in Hin. destruct (tasker_ self), cond;
        try by apply elem_of_nil in Hin.
      apply list_elem_of_singleton in Hin. congruence.
    - pose proof (list_events_candidates self ctx (global_debug_mode w) calls) as Hall.
      rewrite Forall_forall in Hall. apply Hall in Hin. cbn in Hin. congruence.
    - unfold notified in Hin. destruct (tasker_ self), cond;
        try by apply elem_of_nil in Hin.
      apply list_elem_of_singleton in Hin. congruence. }
  eexists _, (flat_map (candidate_obs self ctx (global_debug_mode w)) calls), calls.
  split_and!.
  - etrans; [exact Htrace|]. by rewrite <- !app_assoc.
  - reflexivity.
  - reflexivity.
  - unfold recognizer_calls. rewrite !omap_app.
    fold recognizer_calls. rewrite !recognizer_calls_notified.
    by rewrite recognizer_calls_candidates, app_nil_r.
  - exact Hreplay.
  - destruct Hcases as [(pre & name & post & misses & Hl & Hc & Hm & Hf & Hon & Hsome)
                        | (Hc & Hf & Hr)].
    + left. exists pre, name, post, misses. split_and!; try done.
      unfold list_end_msg. destruct Hsome as [box Hbox]. by rewrite Hbox.
    + right. split_and!; try done. by rewrite Hr.
  - intros t Ht Hcond. unfold notified at 2. rewrite Ht, Hcond.
    by rewrite !app_assoc, last_snoc.
  - apply list_events_candidates.
  - exact Hempty.
  - intros Hs. apply Hends in Hs; [|done..].
    unfold list_end_msg in Hs. by destruct (RecoResult.box r).
  - intros Hf. apply Hends in Hf; [|done..]. apply Hempty.
    unfold list_end_msg in Hf. by destruct (RecoResult.box r).
  - intros [Hs Hf]. apply Hends in Hs; [|done..]. apply Hends in Hf; [|done..].
    congruence.
Qed.

(** C9.  With a null tasker, a bound context and a matched result,
    [run_action] still calls the actuator (the only thing it adds to the
    trace: no notification goes out), still takes the next value of the
    node counter and still returns the full record; no cache is written,
    and the one sign of it is the error line in the log. *)
Theorem run_action_without_tasker (self : TaskBase) (ctx : Context)
    (reco : RecoResult.t) (box : Rect) (w : World) :
  tasker_ self = None →
  context_ self = Some ctx →
  RecoResult.box reco = Some box →
  let rw := run_action self reco w in
  let act := Actuator_run None (get_pipeline_data ctx) box (RecoResult.reco_id reco)
               (get_pipeline_data ctx (RecoResult.name reco)) (ext w) in
  rw.1 = {| NodeDetail.node_id := wrap64 (s_global_node_id w + 1);
            NodeDetail.name := RecoResult.name reco;
            NodeDetail.reco_id := RecoResult.reco_id reco;
            NodeDetail.completed := act.1 |} ∧
  s_global_node_id rw.2 = wrap64 (s_global_node_id w + 1) ∧
  trace rw.2 = trace w ++ [OActuate box (RecoResult.reco_id reco) (RecoResult.name reco) act.1] ∧
  taskers rw.2 = taskers w ∧
  log rw.2 = log w ++ [(LogError, "tasker is null")].
Proof.
  intros Ht Hctx Hbox rw act. subst rw.
  destruct (run_action_effects self ctx reco box w Hctx Hbox)
    as (Hr & Htrace & _ & Hid & _ & Hstore).
  unfold notified in Htrace. rewrite Ht in Hr, Htrace, Hstore.
  destruct Hstore as [Hst Hlog]. by split_and!.
Qed.

(** C10.  With a bound context, a bound tasker and a matched result,
    after [run_action] the latest node recorded for the matched name in
    the tasker's cache is the id of the returned record, the one just
    taken from the counter, whether the actuator completed or not. *)
Theorem run_action_sets_latest_node (self : TaskBase) (ctx : Context)
    (reco : RecoResult.t) (box : Rect) (t : TaskerPtr) (w : World) :
  context_ self = Some ctx →
  RecoResult.box reco = Some box →
  tasker_ self = Some t →
  let rw := run_action self reco w in
  NodeDetail.node_id rw.1 = wrap64 (s_global_node_id w + 1) ∧
  NodeDetail.completed rw.1 =
    (Actuator_run (Some t) (get_pipeline_data ctx) box (RecoResult.reco_id reco)
       (get_pipeline_data ctx (RecoResult.name reco)) (ext w)).1 ∧
  RuntimeCache.get_latest_node (RecoResult.name reco) (runtime_cache t rw.2)
    = Some (NodeDetail.node_id rw.1).
Proof.
  intros Hctx Hbox Ht rw. subst rw.
  destruct (run_action_effects self ctx reco box w Hctx Hbox)
    as (Hr & _ & _ & _ & _ & Hstore).
  rewrite Ht in Hstore, Hr. destruct Hstore as [_ Hst].
  rewrite (runtime_cache_stored _ _ _ _ Hst), Hr. cbn [NodeDetail.node_id NodeDetail.completed].
  match goal with |- context [cache_with_node ?s ?i ?d ?c] =>
    destruct (cache_with_node_lookups s i d c) as (_ & Hlatest & _) end.
  by split_and!.
Qed.

(** ** Further properties *)

(** X1.  The constructor with a bound tasker records the task at once, with its
    entry and an empty history; the executor starts at its entry node. *)
Theorem TaskBase_new_records_task (task_id : Z) (entry : string) (t : TaskerPtr)
    (context : option Context) (w : World) :
  let sw := TaskBase_new task_id entry (Some t) context w in
  RuntimeCache.get_task_detail task_id (runtime_cache t sw.2)
    = Some {| TaskDetail.entry := entry; TaskDetail.node_ids := [] |} ∧
  cur_task_ sw.1 = entry ∧
  task_id_ sw.1 = task_id ∧
  trace sw.2 = trace w ∧
  s_global_node_id sw.2 = s_global_node_id w.
Proof.
  cbv zeta. unfold TaskBase_new, init, set_task_detail.
  cbn [tasker_ task_id_ entry_ cur_task_]. unfold mbind, M_bind, update_cache.
  cbn [fst snd mret M_ret cur_task_ task_id_ trace s_global_node_id set_cache].
  split_and!; try done.
  rewrite runtime_cache_set_cache.
  unfold RuntimeCache.get_task_detail, RuntimeCache.set_task_detail. cbn.
  apply lookup_insert_eq.
Qed.

(** X2.  [run_action] writes to the cache of its own tasker only, and there to
    the entries of its own keys only: the records of other node ids, the
    latest nodes of other names and the records of other tasks stay as
    they were. *)
Theorem run_action_frame (self : TaskBase) (ctx : Context) (reco : RecoResult.t)
    (box : Rect) (t : TaskerPtr) (w : World) :
  context_ self = Some ctx →
  RecoResult.box reco = Some box →
  tasker_ self = Some t →
  let rw := run_action self reco w in
  (∀ t', t' ≠ t → runtime_cache t' rw.2 = runtime_cache t' w) ∧
  (∀ id, id ≠ NodeDetail.node_id rw.1 →
     RuntimeCache.get_node_detail id (runtime_cache t rw.2)
     = RuntimeCache.get_node_detail id (runtime_cache t w)) ∧
  (∀ name, name ≠ RecoResult.name reco →
     RuntimeCache.get_latest_node name (runtime_cache t rw.2)
     = RuntimeCache.get_latest_node name (runtime_cache t w)) ∧
  (∀ task, task ≠ task_id_ self →
     RuntimeCache.get_task_detail task (runtime_cache t rw.2)
     = RuntimeCache.get_task_detail task (runtime_cache t w)).
Proof.
  intros Hctx Hbox Ht rw. subst rw.
  destruct (run_action_effects self ctx reco box w Hctx Hbox)
    as (Hr & _ & _ & _ & _ & Hstore).
  rewrite Ht in Hstore, Hr. destruct Hstore as [_ Hst].
  rewrite (runtime_cache_stored _ _ _ _ Hst), Hr. cbn [NodeDetail.node_id].
  split_and!.
  - intros t' Hne. unfold runtime_cache. rewrite Hst. by apply lookup_total_insert_ne.
  - intros id Hne. unfold cache_with_node, RuntimeCache.get_node_detail. cbn.
    by apply lookup_insert_ne.
  - intros name Hne. unfold cache_with_node, RuntimeCache.get_latest_node. cbn.
    by apply lookup_insert_ne.
  - intros task Hne. unfold cache_with_node, RuntimeCache.get_task_detail. cbn.
    by apply lookup_insert_ne.
Qed.

End Properties.

(** * More of the executor *)

Section MoreProperties.
Context `{P : Peripherals}.

(** ** Recognition: what it leaves alone *)

Lemma actuator_calls_app (tr1 tr2 : list Obs) :
  actuator_calls (tr1 ++ tr2) = actuator_calls tr1 ++ actuator_calls tr2.
Proof. apply omap_app. Qed.

Lemma actuator_calls_notified (self : TaskBase) (cond : bool) (msg : Msg) (detail : json) :
  actuator_calls (notified self cond msg detail) = [].
Proof. unfold notified. by destruct (tasker_ self), cond. Qed.

Lemma actuator_calls_candidates (self : TaskBase) (ctx : Context) (dbg : bool)
    (calls : list (string * RecoResult.t)) :
  actuator_calls (flat_map (candidate_obs self ctx dbg) calls) = [].
Proof.
  induction calls as [|[name result] calls IH]; [done|].
  cbn [flat_map]. unfold actuator_calls in *. rewrite omap_app, IH, app_nil_r.
  unfold candidate_obs. rewrite !omap_app.
  fold (actuator_calls (notified self (dbg || focus (get_pipeline_data ctx (name, result).1))
          MaaMsg_Task_Recognition_Starting (reco_cb_detail self 0 (name, result).1))).
  rewrite actuator_calls_notified.
  match goal with |- context [omap ?f (notified ?s ?c ?m ?d)] =>
    change (omap f (notified s c m d)) with (actuator_calls (notified s c m d)) end.
  by rewrite actuator_calls_notified.
Qed.

(** The effects of [run_recognition] in one place, whatever the input:
    either it is rejected, or it is the loop run after the opening. *)
Lemma run_recognition_cases (self : TaskBase) (image : Mat) (candidates : list string)
    (w : World) :
  (∃ text,
     (context_ self = None ∨ Mat_empty image = true) ∧
     run_recognition self image candidates w
     = (RecoResult.empty, add_log [(LogFunc, ""); (LogError, text)] w))
  ∨ (∃ ctx calls lines,
       let rw := run_recognition self image candidates w in
       let cond := global_debug_mode w || focus (get_pipeline_data ctx (cur_task_ self)) in
       let ld := reco_list_cb_detail self candidates in
       context_ self = Some ctx ∧
       Mat_empty image = false ∧
       selects ctx candidates calls rw.1 ∧
       Recognizer_replay (tasker_ self) ctx image calls.*1 (ext w) = (calls, ext rw.2) ∧
       trace rw.2 = trace w
         ++ notified self cond MaaMsg_Task_NextList_Starting ld
         ++ flat_map (candidate_obs self ctx (global_debug_mode w)) calls
         ++ notified self cond (list_end_msg rw.1) ld ∧
       log rw.2 = log w ++ (LogFunc, "") :: lines ∧
       Forall (λ l, l.1 ≠ LogError) lines ∧
       same_store w rw.2).
Proof.
  destruct (context_ self) as [ctx|] eqn:Hctx;
    [destruct (Mat_empty image) eqn:Himg|].
  - left. destruct (run_recognition_rejected self image candidates w) as [text H];
      [by right|]. exists text. split; [by right | done].
  - right. exists ctx. cbv zeta.
    rewrite (run_recognition_run _ _ _ _ _ Hctx Himg).
    match goal with |- context [run_recognition_loop ?s ?c ?i ?cf ?d ?l ?w0] =>
      destruct (run_recognition_loop_spec s c i cf d l w0)
        as (calls & lines & Hsel & Hreplay & Htrace & Hlog & Hlines & Hst)
    end.
    exists calls, lines. cbn [trace add_trace add_log global_debug_mode ext log] in *.
    split_and!; try done.
    + rewrite Htrace. by rewrite <- !app_assoc.
    + rewrite Hlog. by rewrite <- app_assoc.
  - left. destruct (run_recognition_rejected self image candidates w) as [text H];
      [by left|]. exists text. split; [by left | done].
Qed.

(** X3.  [run_recognition] never writes a runtime cache, never takes a
    node id, never flips the debug flag and never calls the actuator,
    whatever it is given. *)
Theorem run_recognition_keeps_store (self : TaskBase) (image : Mat)
    (candidates : list string) (w : World) :
  let rw := run_recognition self image candidates w in
  taskers rw.2 = taskers w ∧
  s_global_node_id rw.2 = s_global_node_id w ∧
  global_debug_mode rw.2 = global_debug_mode w ∧
  actuator_calls (trace rw.2) = actuator_calls (trace w).
Proof.
  cbv zeta.
  destruct (run_recognition_cases self image candidates w)
    as [(text & _ & ->) | (ctx & calls & lines & _ & _ & _ & _ & Htrace & _ & _ & Hst)].
  - done.
  - destruct Hst as (Ht & Hid & Hdbg). split_and!; try done.
    rewrite Htrace. unfold actuator_calls. rewrite !omap_app.
    fold actuator_calls.
    by rewrite !actuator_calls_notified, actuator_calls_candidates, !app_nil_r.
Qed.

(** X4.  [run_recognition] writes an error line to the log exactly when it
    rejects its input (no context, or an empty frame): a list that is
    walked to its end without a match is not logged as an error. *)
Theorem run_recognition_error_log (self : TaskBase) (image : Mat)
    (candidates : list string) (w : World) :
  let rw := run_recognition self image candidates w in
  ∃ lines,
    log rw.2 = log w ++ lines ∧
    ((∃ text, (LogError, text) ∈ lines) ↔
     (context_ self = None ∨ Mat_empty image = true)).
Proof.
  cbv zeta.
  destruct (run_recognition_cases self image candidates w)
    as [(text & Hbad & Hrun) | (ctx & calls & lines & Hctx & Himg & _ & _ & _ & Hlog & Hlines & _)].
  - rewrite Hrun.
    exists [(LogFunc, ""); (LogError, text)]. split; [reflexivity|]. split; [by intros _|].
    intros _. exists text. apply list_elem_of_further, list_elem_of_here.
  - exists ((LogFunc, "") :: lines). split; [done|]. split.
    + intros (text & Hin). apply elem_of_cons in Hin as [Hin|Hin]; [done|].
      rewrite Forall_forall in Hlines. by apply Hlines in Hin.
    + intros [Hnone|Hempty]; congruence.
Qed.

Lemma selects_none_enabled (ctx : Context) (candidates : list string)
    (calls : list (string * RecoResult.t)) (r : RecoResult.t) :
  selects ctx candidates calls r →
  Forall (λ name, enabled (get_pipeline_data ctx name) = false) candidates →
  calls = [] ∧ r = RecoResult.empty.
Proof.
  induction 1 as [ | name rest calls r Hen Hsel IH | name rest result calls r Hen Hbox Hsel IH
                   | name rest result Hen Hbox ]; intros Hall.
  - done.
  - apply Forall_cons in Hall as [_ Hall]. by apply IH.
  - apply Forall_cons in Hall as [Hoff _]. congruence.
  - apply Forall_cons in Hall as [Hoff _]. congruence.
Qed.

(** X5.  A candidate list without an enabled candidate (the empty list
    among them), on a non-empty frame and with a bound context: the empty
    result comes back, the recognizer is not called and the collaborators'
    state is as it was; the trace gains the list opening and the list
    closing as failed, each under the list-level condition, and nothing
    in between. *)
Theorem run_recognition_none_enabled (self : TaskBase) (ctx : Context) (image : Mat)
    (candidates : list string) (w : World) :
  context_ self = Some ctx →
  Mat_empty image = false →
  Forall (λ name, enabled (get_pipeline_data ctx name) = false) candidates →
  let rw := run_recognition self image candidates w in
  let cond := global_debug_mode w || focus (get_pipeline_data ctx (cur_task_ self)) in
  let ld := reco_list_cb_detail self candidates in
  rw.1 = RecoResult.empty ∧
  ext rw.2 = ext w ∧
  trace rw.2 = trace w
    ++ notified self cond MaaMsg_Task_NextList_Starting ld
    ++ notified self cond MaaMsg_Task_NextList_Failed ld.
Proof.
  intros Hctx Himg Hoff. cbv zeta.
  destruct (run_recognition_cases self image candidates w)
    as [(text & Hbad & Hrun) | (ctx' & calls & lines & Hctx' & _ & Hsel & Hreplay & Htrace & _)].
  - destruct Hbad as [?|?]; congruence.
  - assert (ctx' = ctx) as -> by congruence.
    destruct (selects_none_enabled _ _ _ _ Hsel Hoff) as [-> Hr].
    cbn in Hreplay, Htrace. rewrite Hr in Htrace |- *.
    split_and!; [done | congruence | exact Htrace].
Qed.

(** ** Recognition: first match, read as a search *)

Lemma replay_results (tasker : option TaskerPtr) (ctx : Context) (image : Mat)
    (calls : list (string * RecoResult.t)) (e e' : Ext) :
  Recognizer_replay tasker ctx image calls.*1 e = (calls, e') →
  Forall (λ c, ∃ e0, c.2 = (Recognizer_recognize tasker (get_pipeline_data ctx) image
                              (get_pipeline_data ctx c.1) e0).1) calls.
Proof.
  revert e. induction calls as [|[name result] calls IH]; intros e Hreplay; [constructor|].
  cbn in Hreplay. injection Hreplay as Hres Hcalls He.
  constructor.
  - cbn. by exists e.
  - apply (IH (Recognizer_recognize tasker (get_pipeline_data ctx) image
                 (get_pipeline_data ctx name) e).2).
    rewrite <- Hcalls at 2. rewrite <- He. by destruct (Recognizer_replay _ _ _ _ _).
Qed.

Lemma selects_find (ctx : Context) (region : string → option Rect)
    (candidates : list string) (calls : list (string * RecoResult.t)) (r : RecoResult.t) :
  selects ctx candidates calls r →
  Forall (λ c, RecoResult.box c.2 = region c.1) calls →
  match List.find (λ name, enabled (get_pipeline_data ctx name)
                           && bool_decide (is_Some (region name))) candidates with
  | Some name => RecoResult.box r = region name ∧ is_Some (region name) ∧
                 last calls = Some (name, r)
  | None => r = RecoResult.empty
  end.
Proof.
  induction 1 as [ | name rest calls r Hen Hsel IH | name rest result calls r Hen Hbox Hsel IH
                   | name rest result Hen Hbox ]; intros Hall; cbn [List.find].
  - done.
  - rewrite Hen. cbn. by apply IH.
  - apply Forall_cons in Hall as [Hreg Hall]. cbn in Hreg.
    rewrite Hen, <- Hreg, Hbox. cbn.
    specialize (IH Hall). destruct (List.find _ rest); [|done].
    destruct IH as (? & ? & Hlast). split_and!; try done.
    destruct calls; [done|]. by rewrite last_cons, Hlast.
  - apply Forall_cons in Hall as [Hreg _]. cbn in Hreg.
    rewrite Hen, <- Hreg. destruct Hbox as [box Hbox]. rewrite Hbox. cbn.
    split_and!; [congruence | rewrite <- Hreg; by eexists | done].
Qed.

(** X6.  When whether the recognizer finds a region depends on the node
    alone ([region], not on the collaborators' state), [run_recognition] is
    a search: it returns the recognizer's answer for the first candidate of
    the list that is enabled and has a region, that candidate being the
    last one asked, and the empty result if there is none. *)
Theorem run_recognition_is_find (self : TaskBase) (ctx : Context) (image : Mat)
    (region : string → option Rect) (candidates : list string) (w : World) :
  context_ self = Some ctx →
  Mat_empty image = false →
  (∀ name e,
     RecoResult.box (Recognizer_recognize (tasker_ self) (get_pipeline_data ctx) image
                       (get_pipeline_data ctx name) e).1 = region name) →
  let rw := run_recognition self image candidates w in
  match List.find (λ name, enabled (get_pipeline_data ctx name)
                           && bool_decide (is_Some (region name))) candidates with
  | Some name =>
      RecoResult.box rw.1 = region name ∧
      is_Some (region name) ∧
      ∃ asked, recognizer_calls (trace rw.2)
               = recognizer_calls (trace w) ++ asked ∧ last asked = Some (name, rw.1)
  | None => rw.1 = RecoResult.empty
  end.
Proof.
  intros Hctx Himg Hregion. cbv zeta.
  destruct (run_recognition_cases self image candidates w)
    as [(text & Hbad & _) | (ctx' & calls & lines & Hctx' & _ & Hsel & Hreplay & Htrace & _)].
  { destruct Hbad as [?|?]; congruence. }
  assert (ctx' = ctx) as -> by congruence.
  assert (Hboxes : Forall (λ c, RecoResult.box c.2 = region c.1) calls).
  { eapply Forall_impl; [exact (replay_results _ _ _ _ _ _ Hreplay)|].
    intros [name result] [e0 ->]. apply Hregion. }
  pose proof (selects_find ctx region candidates calls _ Hsel Hboxes) as Hfind.
  destruct (List.find _ candidates) as [name|]; [|done].
  destruct Hfind as (Hbox & Hsome & Hlast). split_and!; try done.
  exists calls. split; [|done].
  rewrite Htrace. unfold recognizer_calls. rewrite !omap_app.
  fold recognizer_calls. rewrite !recognizer_calls_notified.
  by rewrite recognizer_calls_candidates, !app_nil_r.
Qed.

(** ** Recognition followed by action *)

(** X7.  One cycle, whatever the input: the result of [run_recognition]
    handed to [run_action] on the same executor.  Without a region in the
    result, the empty record comes back, no node id is taken, no cache is
    written and the actuator is not called.  With a region, the next node
    id is taken, the record carries the name and the recognition id of the
    recognition result, and the actuator is called once, on that region. *)
Theorem recognition_then_action (self : TaskBase) (image : Mat)
    (candidates : list string) (w : World) :
  let rw := run_recognition self image candidates w in
  let aw := run_action self rw.1 rw.2 in
  match RecoResult.box rw.1 with
  | None =>
      aw.1 = NodeDetail.empty ∧
      s_global_node_id aw.2 = s_global_node_id w ∧
      taskers aw.2 = taskers w ∧
      actuator_calls (trace aw.2) = actuator_calls (trace w)
  | Some box =>
      NodeDetail.node_id aw.1 = wrap64 (s_global_node_id w + 1) ∧
      s_global_node_id aw.2 = wrap64 (s_global_node_id w + 1) ∧
      NodeDetail.name aw.1 = RecoResult.name rw.1 ∧
      NodeDetail.reco_id aw.1 = RecoResult.reco_id rw.1 ∧
      actuator_calls (trace aw.2)
      = actuator_calls (trace w)
        ++ [(box, RecoResult.reco_id rw.1, RecoResult.name rw.1, NodeDetail.completed aw.1)]
  end.
Proof.
  cbv zeta.
  destruct (run_recognition_keeps_store self image candidates w)
    as (Ht & Hid & _ & Hact).
  destruct (RecoResult.box (run_recognition self image candidates w).1) as [box|] eqn:Hbox.
  - assert (∃ ctx, context_ self = Some ctx) as [ctx Hctx].
    { destruct (run_recognition_cases self image candidates w)
        as [(text & _ & Hrun) | (ctx & _ & _ & Hctx & _)]; [|by exists ctx].
      rewrite Hrun in Hbox. discriminate Hbox. }
    destruct (run_action_effects self ctx _ box
                (run_recognition self image candidates w).2 Hctx Hbox)
      as (Hr & Htrace & _ & Hnew & _).
    rewrite Hr, Hnew, Htrace, Hid. cbn [NodeDetail.node_id NodeDetail.name
      NodeDetail.reco_id NodeDetail.completed].
    split_and!; try done.
    by rewrite !actuator_calls_app, !actuator_calls_notified, Hact.
  - destruct (run_action_rejected self _ (run_recognition self image candidates w).2
                (or_intror Hbox)) as [text ->].
    by split_and!.
Qed.

(** ** Notifications: to whom, about what *)

Lemma notifications_app (tr1 tr2 : list Obs) :
  notifications (tr1 ++ tr2) = notifications tr1 ++ notifications tr2.
Proof. apply omap_app. Qed.

Lemma notifications_notified (self : TaskBase) (cond : bool) (msg : Msg) (detail : json)
    (Q : TaskerPtr * Msg * json → Prop) :
  (∀ t, tasker_ self = Some t → Q (t, msg, detail)) →
  Forall Q (notifications (notified self cond msg detail)).
Proof.
  intros HQ. unfold notified. destruct (tasker_ self) as [t|], cond; cbn;
    repeat constructor. by apply HQ.
Qed.

Lemma notifications_candidates (self : TaskBase) (ctx : Context) (dbg : bool)
    (calls : list (string * RecoResult.t)) (Q : TaskerPtr * Msg * json → Prop) :
  (∀ t call msg reco_id, tasker_ self = Some t → call ∈ calls → is_list_msg msg = false →
     Q (t, msg, reco_cb_detail self reco_id call.1)) →
  Forall Q (notifications (flat_map (candidate_obs self ctx dbg) calls)).
Proof.
  intros HQ. induction calls as [|call calls IH]; [constructor|].
  cbn [flat_map]. rewrite notifications_app. apply Forall_app. split.
  - unfold candidate_obs. rewrite !notifications_app. rewrite !Forall_app. split_and!.
    + apply notifications_notified. intros t Ht. apply HQ; [done | apply list_elem_of_here | done].
    + constructor.
    + apply notifications_notified. intros t Ht.
      apply HQ; [done | apply list_elem_of_here | by destruct (RecoResult.box _)].
  - apply IH. intros t call' msg reco_id Ht Hin Hmsg.
    apply HQ; [done | by apply list_elem_of_further | done].
Qed.

Lemma selects_calls_enabled (ctx : Context) (candidates : list string)
    (calls : list (string * RecoResult.t)) (r : RecoResult.t) :
  selects ctx candidates calls r →
  Forall (λ c, c.1 ∈ candidates ∧ enabled (get_pipeline_data ctx c.1) = true) calls.
Proof.
  induction 1 as [ | name rest calls r Hen Hsel IH | name rest result calls r Hen Hbox Hsel IH
                   | name rest result Hen Hbox ].
  - constructor.
  - eapply Forall_impl; [exact IH|]. intros c [Hin Hon]. split; [by apply list_elem_of_further|done].
  - constructor; [split; [apply list_elem_of_here | done]|].
    eapply Forall_impl; [exact IH|]. intros c [Hin Hon]. split; [by apply list_elem_of_further|done].
  - constructor; [|constructor]. split; [apply list_elem_of_here | done].
Qed.

(** X8.  Every notification [run_recognition] or [run_action] sends goes
    to the executor's own tasker and carries the executor's task id, on
    any input. *)
Theorem notifications_are_own (self : TaskBase) (image : Mat) (candidates : list string)
    (reco : RecoResult.t) (w : World) :
  let own := λ n : TaskerPtr * Msg * json,
    tasker_ self = Some n.1.1 ∧ json_get "task_id" n.2 = Some (JNum (task_id_ self)) in
  (∃ new, notifications (trace (run_recognition self image candidates w).2)
          = notifications (trace w) ++ new ∧ Forall own new) ∧
  (∃ new, notifications (trace (run_action self reco w).2)
          = notifications (trace w) ++ new ∧ Forall own new).
Proof.
  cbv zeta. split.
  - destruct (run_recognition_cases self image candidates w)
      as [(text & _ & Hrun) | (ctx & calls & lines & _ & _ & _ & _ & Htrace & _)].
    + rewrite Hrun. exists []. by rewrite app_nil_r.
    + eexists. rewrite Htrace, notifications_app. split; [reflexivity|].
      rewrite !notifications_app, !Forall_app. split_and!.
      * by apply notifications_notified.
      * apply notifications_candidates. by intros.
      * by apply notifications_notified.
  - destruct (context_ self) as [ctx|] eqn:Hctx;
      [destruct (RecoResult.box reco) as [box|] eqn:Hbox|].
    + destruct (run_action_effects self ctx reco box w Hctx Hbox) as (_ & Htrace & _).
      eexists. rewrite Htrace, notifications_app. split; [reflexivity|].
      rewrite !notifications_app, !Forall_app. split_and!.
      * by apply notifications_notified.
      * constructor.
      * by apply notifications_notified.
    + destruct (run_action_rejected self reco w (or_intror Hbox)) as [text ->].
      exists []. by rewrite app_nil_r.
    + destruct (run_action_rejected self reco w (or_introl Hctx)) as [text ->].
      exists []. by rewrite app_nil_r.
Qed.

(** X9.  What the notifications of [run_recognition] are about: a
    list-level one names the executor's current node and carries the
    candidate list as given; any other names a candidate that is in the
    list and enabled.  Disabled candidates and names outside the list are
    never announced. *)
Theorem recognition_events_name_candidates (self : TaskBase) (image : Mat)
    (candidates : list string) (w : World) :
  let rw := run_recognition self image candidates w in
  ∃ new,
    notifications (trace rw.2) = notifications (trace w) ++ new ∧
    Forall (λ n : TaskerPtr * Msg * json,
      if is_list_msg n.1.2 then
        json_get "name" n.2 = Some (JString (cur_task_ self)) ∧
        json_get "list" n.2 = Some (JArray (JString <$> candidates))
      else
        ∃ ctx name,
          context_ self = Some ctx ∧
          name ∈ candidates ∧
          enabled (get_pipeline_data ctx name) = true ∧
          json_get "name" n.2 = Some (JString name)) new.
Proof.
  cbv zeta.
  destruct (run_recognition_cases self image candidates w)
    as [(text & _ & Hrun) | (ctx & calls & lines & Hctx & _ & Hsel & _ & Htrace & _)].
  - rewrite Hrun. exists []. by rewrite app_nil_r.
  - eexists. rewrite Htrace, notifications_app. split; [reflexivity|].
    rewrite !notifications_app, !Forall_app. split_and!.
    + by apply notifications_notified.
    + apply notifications_candidates. intros t call msg reco_id _ Hin Hmsg.
      cbn [fst snd]. rewrite Hmsg.
      pose proof (selects_calls_enabled _ _ _ _ Hsel) as Hall.
      rewrite Forall_forall in Hall. destruct (Hall _ Hin) as [Hcand Hon].
      by exists ctx, call.1.
    + apply notifications_notified. intros t _. cbn [fst snd].
      unfold list_end_msg. by destruct (RecoResult.box _).
Qed.

(** X10.  An executor without a tasker is silent: constructing it,
    [run_recognition] and [run_action] write no runtime cache and send no
    notification, on any input. *)
Theorem detached_executor_is_silent (task_id : Z) (entry : string) (context : option Context)
    (self : TaskBase) (image : Mat) (candidates : list string) (reco : RecoResult.t)
    (w : World) :
  tasker_ self = None →
  let quiet := λ w' : World,
    taskers w' = taskers w ∧ notifications (trace w') = notifications (trace w) in
  (let sw := TaskBase_new task_id entry None context w in
   tasker_ sw.1 = None ∧ quiet sw.2) ∧
  quiet (run_recognition self image candidates w).2 ∧
  quiet (run_action self reco w).2.
Proof.
  intros Hnull. cbv zeta.
  assert (Hnone : ∀ {A} (l : list A), Forall (λ _, False) l → l = []).
  { intros A [|x l] Hl; [done|]. by apply Forall_cons in Hl as [[] _]. }
  assert (Hoff : ∀ t, tasker_ self = Some t → False) by (intros t; congruence).
  split_and!; try done.
  - destruct (run_recognition_keeps_store self image candidates w) as (Ht & _). exact Ht.
  - destruct (run_recognition_cases self image candidates w)
      as [(text & _ & Hrun) | (ctx & calls & lines & _ & _ & _ & _ & Htrace & _)].
    + by rewrite Hrun.
    + rewrite Htrace, !notifications_app.
      rewrite (Hnone _ _ (notifications_notified self _ _ _ (λ _, False) Hoff)).
      rewrite (Hnone _ _ (notifications_notified self _ _ _ (λ _, False) Hoff)).
      rewrite (Hnone _ (notifications (flat_map _ calls))).
      * by rewrite !app_nil_r.
      * apply notifications_candidates. intros t ? ? ? Ht. by apply Hoff in Ht.
  - destruct (context_ self) as [ctx|] eqn:Hctx;
      [destruct (RecoResult.box reco) as [box|] eqn:Hbox|].
    + destruct (run_action_effects self ctx reco box w Hctx Hbox)
        as (_ & _ & _ & _ & _ & Hstore).
      rewrite Hnull in Hstore. by destruct Hstore.
    + by destruct (run_action_rejected self reco w (or_intror Hbox)) as [text ->].
    + by destruct (run_action_rejected self reco w (or_introl Hctx)) as [text ->].
  - destruct (context_ self) as [ctx|] eqn:Hctx;
      [destruct (RecoResult.box reco) as [box|] eqn:Hbox|].
    + destruct (run_action_effects self ctx reco box w Hctx Hbox) as (_ & Htrace & _).
      rewrite Htrace. unfold notified. rewrite Hnull. cbn [app].
      by rewrite notifications_app, app_nil_r.
    + by destruct (run_action_rejected self reco w (or_intror Hbox)) as [text ->].
    + by destruct (run_action_rejected self reco w (or_introl Hctx)) as [text ->].
Qed.

(** ** Sequences of actions *)

(** What one [run_action] that goes through does to the counter and to
    the caches. *)
Lemma run_action_call (self : TaskBase) (reco : RecoResult.t) (w : World) :
  can_run (self, reco) →
  let rw := run_action self reco w in
  NodeDetail.node_id rw.1 = wrap64 (s_global_node_id w + 1) ∧
  NodeDetail.name rw.1 = RecoResult.name reco ∧
  s_global_node_id rw.2 = wrap64 (s_global_node_id w + 1) ∧
  taskers rw.2 = match tasker_ self with
                 | Some t => <[t := cache_with_node self (NodeDetail.node_id rw.1) rw.1
                                      (runtime_cache t w)]> (taskers w)
                 | None => taskers w
                 end.
Proof.
  intros [[ctx Hctx] [box Hbox]]. cbn in Hctx, Hbox. cbv zeta.
  destruct (run_action_effects self ctx reco box w Hctx Hbox)
    as (Hr & _ & _ & Hid & _ & Hstore).
  rewrite Hr, Hid. cbn [NodeDetail.node_id NodeDetail.name]. split_and!; try done.
  destruct (tasker_ self); by destruct Hstore.
Qed.

Lemma ids_where_cons (p : TaskBase * RecoResult.t → bool) (call : TaskBase * RecoResult.t)
    (calls : list (TaskBase * RecoResult.t)) (r : NodeDetail.t) (rs : list NodeDetail.t) :
  ids_where p (call :: calls) (r :: rs)
  = (if p call then [NodeDetail.node_id r] else []) ++ ids_where p calls rs.
Proof. unfold ids_where. cbn. by destruct (p call). Qed.

Lemma run_action_history (t : TaskerPtr) (task : Z) (self : TaskBase) (reco : RecoResult.t)
    (w : World) :
  can_run (self, reco) →
  let rw := run_action self reco w in
  history task (runtime_cache t rw.2)
  = history task (runtime_cache t w)
    ++ (if of_task t task (self, reco) then [NodeDetail.node_id rw.1] else []).
Proof.
  intros Hcan. cbv zeta.
  destruct (run_action_call self reco w Hcan) as (_ & _ & _ & Hst).
  unfold runtime_cache, of_task. rewrite Hst. cbn [fst snd].
  destruct (tasker_ self) as [t0|].
  - destruct (decide (t0 = t)) as [->|Hne].
    + rewrite lookup_total_insert_eq.
      unfold history, cache_with_node, RuntimeCache.get_task_detail. cbn.
      destruct (decide (task_id_ self = task)) as [<-|Hother].
      * rewrite lookup_insert_eq, bool_decide_eq_true_2 by done. cbn.
        unfold runtime_cache.
        by destruct (RuntimeCache.task_details (taskers w !!! t) !! task_id_ self).
      * rewrite lookup_insert_ne by done.
        rewrite bool_decide_eq_false_2 by (by intros [_ ?]).
        by rewrite app_nil_r.
    + rewrite lookup_total_insert_ne by done.
      rewrite bool_decide_eq_false_2 by (intros [[= ?] _]; done). by rewrite app_nil_r.
  - rewrite bool_decide_eq_false_2 by (by intros [? _]). by rewrite app_nil_r.
Qed.

(** X11.  Any number of [run_action] calls in a row, by whichever
    executors: afterwards the node ids recorded for a task on a tasker are
    the ones it had, followed by the ids returned to the calls made by
    executors of that task on that tasker, in call order.  Calls for other
    tasks or other taskers add nothing to it. *)
Theorem task_history_follows_calls (t : TaskerPtr) (task : Z)
    (calls : list (TaskBase * RecoResult.t)) (w : World) :
  Forall can_run calls →
  let rw := run_actions calls w in
  history task (runtime_cache t rw.2)
  = history task (runtime_cache t w) ++ ids_where (of_task t task) calls rw.1.
Proof.
  revert w. induction calls as [|[self reco] rest IH]; intros w Hcan; cbv zeta.
  - cbn. by rewrite app_nil_r.
  - apply Forall_cons in Hcan as [Hcan Hrest].
    rewrite run_actions_cons. cbn [fst snd]. rewrite ids_where_cons.
    specialize (IH (run_action self reco w).2 Hrest). cbv zeta in IH. rewrite IH.
    rewrite (run_action_history t task self reco w Hcan). by rewrite <- app_assoc.
Qed.

Lemma run_action_latest (t : TaskerPtr) (name : string) (self : TaskBase)
    (reco : RecoResult.t) (w : World) :
  can_run (self, reco) →
  let rw := run_action self reco w in
  RuntimeCache.get_latest_node name (runtime_cache t rw.2)
  = if of_name t name (self, reco) then Some (NodeDetail.node_id rw.1)
    else RuntimeCache.get_latest_node name (runtime_cache t w).
Proof.
  intros Hcan. cbv zeta.
  destruct (run_action_call self reco w Hcan) as (_ & Hname & _ & Hst).
  unfold runtime_cache, of_name. rewrite Hst. cbn [fst snd].
  destruct (tasker_ self) as [t0|].
  - destruct (decide (t0 = t)) as [->|Hne].
    + rewrite lookup_total_insert_eq.
      unfold cache_with_node, RuntimeCache.get_latest_node. cbn. rewrite Hname.
      destruct (decide (RecoResult.name reco = name)) as [<-|Hother].
      * by rewrite lookup_insert_eq, bool_decide_eq_true_2.
      * rewrite lookup_insert_ne by done.
        by rewrite bool_decide_eq_false_2 by (by intros [_ ?]).
    + rewrite lookup_total_insert_ne by done.
      by rewrite bool_decide_eq_false_2 by (intros [[= ?] _]; done).
  - by rewrite bool_decide_eq_false_2 by (by intros [? _]).
Qed.

(** X12.  Any number of [run_action] calls in a row: afterwards the
    latest node recorded for a name on a tasker is the id returned to the
    last call made on that tasker for a result of that name, and what it
    was before if there was no such call. *)
Theorem latest_node_is_last_call (t : TaskerPtr) (name : string)
    (calls : list (TaskBase * RecoResult.t)) (w : World) :
  Forall can_run calls →
  let rw := run_actions calls w in
  RuntimeCache.get_latest_node name (runtime_cache t rw.2)
  = match last (ids_where (of_name t name) calls rw.1) with
    | Some id => Some id
    | None => RuntimeCache.get_latest_node name (runtime_cache t w)
    end.
Proof.
  revert w. induction calls as [|[self reco] rest IH]; intros w Hcan; cbv zeta.
  - done.
  - apply Forall_cons in Hcan as [Hcan Hrest].
    rewrite run_actions_cons. cbn [fst snd]. rewrite ids_where_cons.
    specialize (IH (run_action self reco w).2 Hrest). cbv zeta in IH. rewrite IH.
    rewrite last_app.
    destruct (last (ids_where _ rest _)); [done|].
    rewrite (run_action_latest t name self reco w Hcan).
    by destruct (of_name t name (self, reco)).
Qed.

Lemma run_action_keeps_node (t : TaskerPtr) (id : Z) (self : TaskBase)
    (reco : RecoResult.t) (w : World) :
  can_run (self, reco) →
  id ≠ wrap64 (s_global_node_id w + 1) →
  RuntimeCache.get_node_detail id (runtime_cache t (run_action self reco w).2)
  = RuntimeCache.get_node_detail id (runtime_cache t w).
Proof.
  intros Hcan Hne.
  destruct (run_action_call self reco w Hcan) as (Hid & _ & _ & Hst).
  unfold runtime_cache. rewrite Hst.
  destruct (tasker_ self) as [t0|]; [|done].
  destruct (decide (t0 = t)) as [->|Hother]; [|by rewrite lookup_total_insert_ne].
  rewrite lookup_total_insert_eq.
  unfold cache_with_node, RuntimeCache.get_node_detail. cbn.
  rewrite lookup_insert_ne; [done|]. by rewrite Hid.
Qed.

Lemma run_actions_keep_node (t : TaskerPtr) (id : Z)
    (calls : list (TaskBase * RecoResult.t)) (w : World) :
  Forall can_run calls →
  INT64_MIN ≤ s_global_node_id w →
  s_global_node_id w + Z.of_nat (length calls) ≤ INT64_MAX →
  id ≤ s_global_node_id w →
  RuntimeCache.get_node_detail id (runtime_cache t (run_actions calls w).2)
  = RuntimeCache.get_node_detail id (runtime_cache t w).
Proof.
  revert w. induction calls as [|[self reco] rest IH]; intros w Hcan Hlo Hhi Hid; [done|].
  apply Forall_cons in Hcan as [Hcan Hrest]. cbn [length] in Hhi.
  destruct (run_action_call self reco w Hcan) as (_ & _ & Hnext & _).
  rewrite wrap64_in_range in Hnext by (unfold INT64_MIN, INT64_MAX in *; lia).
  rewrite run_actions_cons. cbn [fst snd].
  rewrite IH by (try done; rewrite Hnext; lia).
  apply run_action_keeps_node; [done|].
  rewrite wrap64_in_range by (unfold INT64_MIN, INT64_MAX in *; lia). lia.
Qed.

(** X13.  Records stay where they were put.  Any number of [run_action]
    calls in a row that stays within the [int64_t] range of the counter:
    afterwards the record returned to each call made by an executor with a
    tasker is still stored under its id in that tasker's cache, whatever
    the later calls were. *)
Theorem records_stay_queryable (calls : list (TaskBase * RecoResult.t)) (w : World)
    (i : nat) (self : TaskBase) (reco : RecoResult.t) (t : TaskerPtr) (r : NodeDetail.t) :
  Forall can_run calls →
  INT64_MIN ≤ s_global_node_id w →
  s_global_node_id w + Z.of_nat (length calls) ≤ INT64_MAX →
  calls !! i = Some (self, reco) →
  tasker_ self = Some t →
  let rw := run_actions calls w in
  rw.1 !! i = Some r →
  RuntimeCache.get_node_detail (NodeDetail.node_id r) (runtime_cache t rw.2) = Some r.
Proof.
  revert w i. induction calls as [|[self0 reco0] rest IH];
    intros w i Hcan Hlo Hhi Hcall Ht; cbv zeta; [done|].
  apply Forall_cons in Hcan as [Hcan Hrest]. cbn [length] in Hhi.
  destruct (run_action_call self0 reco0 w Hcan) as (Hid & _ & Hnext & Hst).
  rewrite wrap64_in_range in Hnext, Hid by (unfold INT64_MIN, INT64_MAX in *; lia).
  rewrite run_actions_cons. cbn [fst snd].
  destruct i as [|i]; cbn in Hcall |- *.
  - injection Hcall as -> ->. intros [= <-].
    rewrite run_actions_keep_node by (try done; rewrite ?Hnext, ?Hid; lia).
    unfold runtime_cache. rewrite Hst, Ht, lookup_total_insert_eq.
    match goal with |- context [cache_with_node ?s ?i ?d ?c] =>
      destruct (cache_with_node_lookups s i d c) as (Hnode & _) end.
    exact Hnode.
  - intros Hr. apply (IH _ i); try done; rewrite Hnext; lia.
Qed.

(** ** Frame capture, pipeline override, construction *)

(** X14.  [screencap] writes to nothing but the collaborators' state:
    caches, node counter, debug flag, trace and log are as they were.  On
    an executor without a tasker, or whose tasker has no controller, it
    returns the value-initialised frame and leaves the collaborators'
    state alone too; if that frame is empty, as a value-initialised
    [cv::Mat] is, a [run_recognition] on it is rejected: empty result,
    nothing asked, nothing sent. *)
Theorem screencap_without_controller (self : TaskBase) (candidates : list string)
    (w : World) :
  let sw := screencap self w in
  (taskers sw.2 = taskers w ∧ s_global_node_id sw.2 = s_global_node_id w ∧
   global_debug_mode sw.2 = global_debug_mode w ∧ trace sw.2 = trace w ∧ log sw.2 = log w) ∧
  ((tasker_ self = None ∨ ∃ t, tasker_ self = Some t ∧ Tasker_controller t = None) →
   sw.1 = Mat_default ∧
   ext sw.2 = ext w ∧
   (Mat_empty Mat_default = true →
    let rw := run_recognition self sw.1 candidates sw.2 in
    rw.1 = RecoResult.empty ∧ trace rw.2 = trace w ∧ ext rw.2 = ext w)).
Proof.
  cbv zeta. unfold screencap, controller. split.
  - by destruct (tasker_ self) as [t|]; [destruct (Tasker_controller t)|].
  - intros Hno.
    assert (Hctl : match tasker_ self with Some t => Tasker_controller t | None => None end
                   = None).
    { destruct Hno as [->|(t & -> & ->)]; done. }
    rewrite Hctl. cbn. split_and!; try done.
    intros Hempty.
    destruct (run_recognition_rejected self Mat_default candidates w (or_intror Hempty))
      as [text ->].
    done.
Qed.

(** X15.  Capture, then recognition.  On an executor whose tasker has a
    controller, [screencap] returns the frame the controller captured and
    ends in the state the controller left.  If that frame is not empty and
    the context is bound, [run_recognition] on it asks the recognizer about
    that very frame, starting from that state, and selects as always: the
    candidates asked are enabled and from the list, and the result is the
    one [selects] picks. *)
Theorem capture_then_recognition (self : TaskBase) (t : TaskerPtr) (c : ControllerPtr)
    (ctx : Context) (candidates : list string) (w : World) :
  tasker_ self = Some t →
  Tasker_controller t = Some c →
  context_ self = Some ctx →
  let shot := ControllerAgent_screencap c (ext w) in
  Mat_empty shot.1 = false →
  let sw := screencap self w in
  let rw := run_recognition self sw.1 candidates sw.2 in
  sw.1 = shot.1 ∧
  ext sw.2 = shot.2 ∧
  ∃ calls,
    recognizer_calls (trace rw.2) = recognizer_calls (trace w) ++ calls ∧
    Recognizer_replay (Some t) ctx shot.1 calls.*1 shot.2 = (calls, ext rw.2) ∧
    selects ctx candidates calls rw.1.
Proof.
  intros Ht Hc Hctx shot Himg. cbv zeta.
  assert (Hshot : screencap self w = (shot.1, set_ext shot.2 w)).
  { unfold screencap, controller. by rewrite Ht, Hc. }
  rewrite Hshot. cbn [fst snd ext set_ext]. split_and!; try done.
  destruct (run_recognition_cases self shot.1 candidates (set_ext shot.2 w))
    as [(text & Hbad & _) | (ctx' & calls & lines & Hctx' & _ & Hsel & Hreplay & Htrace & _)].
  { destruct Hbad as [?|?]; congruence. }
  assert (ctx' = ctx) as -> by congruence.
  exists calls. rewrite Ht in Hreplay. split_and!; try done.
  rewrite Htrace. cbn [trace set_ext]. unfold recognizer_calls. rewrite !omap_app.
  fold recognizer_calls. rewrite !recognizer_calls_notified.
  by rewrite recognizer_calls_candidates, !app_nil_r.
Qed.

(** X16.  [override_pipeline] changes nothing of the executor but its
    context.  Without a context it refuses (false) and the executor is as
    it was.  With one it returns the context's verdict, and the patched
    context is what the executor's next [run_recognition] reads: on a
    non-empty frame it asks the recognizer only about candidates of the
    list that are enabled in the patched context. *)
Theorem override_pipeline_takes_effect (self : TaskBase) (patch : json) (image : Mat)
    (candidates : list string) (w : World) :
  let r := override_pipeline self patch in
  (tasker_ r.2 = tasker_ self ∧ entry_ r.2 = entry_ self ∧
   cur_task_ r.2 = cur_task_ self ∧ task_id_ r.2 = task_id_ self) ∧
  (context_ self = None → r.1 = false ∧ r.2 = self) ∧
  (∀ ctx, context_ self = Some ctx →
     let patched := Context_override_pipeline patch ctx in
     r.1 = patched.1 ∧
     context_ r.2 = Some patched.2 ∧
     (Mat_empty image = false →
      let rw := run_recognition r.2 image candidates w in
      ∃ asked,
        recognizer_calls (trace rw.2) = recognizer_calls (trace w) ++ asked ∧
        Forall (λ call, call.1 ∈ candidates ∧
                        enabled (get_pipeline_data patched.2 call.1) = true) asked)).
Proof.
  cbv zeta. unfold override_pipeline. split; [|split].
  - by destruct (context_ self).
  - by intros ->.
  - intros ctx ->. cbn [fst snd context_]. split; [done|]. split; [done|].
    intros Himg.
    match goal with |- context [run_recognition ?s _ _ _] => set (self' := s) end.
    destruct (run_recognition_cases self' image candidates w)
      as [(text & Hbad & _) | (ctx' & calls & lines & Hctx' & _ & Hsel & _ & Htrace & _)].
    { destruct Hbad as [Hbad|Hbad]; [discriminate Hbad | congruence]. }
    injection Hctx' as <-.
    exists calls. split; [|exact (selects_calls_enabled _ _ _ _ Hsel)].
    rewrite Htrace. unfold recognizer_calls. rewrite !omap_app.
    fold recognizer_calls. rewrite !recognizer_calls_notified.
    by rewrite recognizer_calls_candidates, !app_nil_r.
Qed.

(** X17.  The two-argument constructor: the accessors give back what it
    was constructed with, the current node is the entry, the context is
    the one [Context::create] made for the task id and the tasker, and
    [resource()] and [controller()] are the tasker's, null without a
    tasker.  With a tasker the task is recorded at once with an empty
    history; without one no cache is written and the log gains an error
    line.  Either way nothing is sent and no node id is taken. *)
Theorem TaskBase_create_accessors (id : Z) (entry' : string)
    (tasker' : option TaskerPtr) (w : World) :
  let sw := TaskBase_create id entry' tasker' w in
  tasker sw.1 = tasker' ∧
  entry sw.1 = entry' ∧
  task_id sw.1 = id ∧
  cur_task_ sw.1 = entry' ∧
  context_ sw.1 = Context_create id tasker' ∧
  resource sw.1 = tasker' ≫= Tasker_resource ∧
  controller sw.1 = tasker' ≫= Tasker_controller ∧
  trace sw.2 = trace w ∧
  s_global_node_id sw.2 = s_global_node_id w ∧
  match tasker' with
  | Some t =>
      RuntimeCache.get_task_detail id (runtime_cache t sw.2)
      = Some {| TaskDetail.entry := entry'; TaskDetail.node_ids := [] |} ∧
      log sw.2 = log w
  | None => taskers sw.2 = taskers w ∧ log sw.2 = log w ++ [(LogError, "tasker is null")]
  end.
Proof.
  cbv zeta.
  set (self := {| tasker_ := tasker'; entry_ := entry'; cur_task_ := entry';
                  context_ := Context_create id tasker'; task_id_ := id |}).
  assert (Hrun : TaskBase_create id entry' tasker' w = (self, (init self w).2))
    by reflexivity.
  rewrite Hrun. cbn [fst snd]. unfold init, set_task_detail, tasker, entry, resource,
    controller, task_id. subst self. cbn [tasker_ entry_ cur_task_ context_ task_id_].
  destruct tasker' as [t|]; unfold update_cache, write_log; cbn [fst snd].
  - split_and!; try done. rewrite runtime_cache_set_cache.
    unfold RuntimeCache.get_task_detail, RuntimeCache.set_task_detail. cbn.
    apply lookup_insert_eq.
  - by split_and!.
Qed.

End MoreProperties.

(** * The claims on the small instance *)

(** C1 at the three candidates [A] (disabled), [B] (no region) and [C]
    (region): [B] then [C] are asked, and the result of [C] comes back. *)
Lemma run_recognition_first_enabled_match_witness :
  let w := Demo.world true in
  let rw := run_recognition Demo.executor Demo.image ["A"; "B"; "C"] w in
  context_ Demo.executor = Some Demo.context ∧
  Mat_empty Demo.image = false ∧
  ∃ calls,
    recognizer_calls (trace rw.2) = recognizer_calls (trace w) ++ calls ∧
    Recognizer_replay (tasker_ Demo.executor) Demo.context Demo.image calls.*1 (ext w)
      = (calls, ext rw.2).
Proof.
  cbv zeta. split; [reflexivity|]. split; [reflexivity|].
  destruct (run_recognition_first_enabled_match Demo.executor Demo.context Demo.image
              ["A"; "B"; "C"] (Demo.world true) eq_refl eq_refl)
    as (calls & Hcalls & Hreplay & _).
  exists calls. split; [exact Hcalls | exact Hreplay].
Defined.

(** C2 at an executor without a context. *)
Lemma run_recognition_guard_witness :
  let w := Demo.world true in
  let rw := run_recognition Demo.unbound Demo.image ["B"; "C"] w in
  (context_ Demo.unbound = None ∨ Mat_empty Demo.image = true) ∧
  rw.1 = RecoResult.empty ∧
  trace rw.2 = trace w ∧
  ext rw.2 = ext w ∧
  same_store w rw.2 ∧
  ∃ text, log rw.2 = log w ++ [(LogFunc, ""); (LogError, text)].
Proof.
  cbv zeta. split; [left; reflexivity|].
  apply (run_recognition_guard Demo.unbound Demo.image ["B"; "C"] (Demo.world true)).
  left. reflexivity.
Defined.

(** C3 at an unmatched result. *)
Lemma run_action_unmatched_witness :
  let w := Demo.world true in
  let rw := run_action Demo.executor Demo.miss w in
  RecoResult.box Demo.miss = None ∧
  rw.1 = NodeDetail.empty ∧
  trace rw.2 = trace w ∧
  ext rw.2 = ext w ∧
  s_global_node_id rw.2 = s_global_node_id w ∧
  taskers rw.2 = taskers w ∧
  ∃ text, log rw.2 = log w ++ [(LogError, text)].
Proof.
  cbv zeta. split; [reflexivity|].
  apply (run_action_unmatched Demo.executor Demo.miss (Demo.world true)).
  reflexivity.
Defined.

(** C4 as stated fails on an executor without a tasker: the context is
    bound and the result matched, the record with id 1 comes back, and no
    cache of any tasker holds it. *)
Lemma run_action_persists_counterexample :
  let rw := run_action Demo.detached Demo.hit (Demo.world false) in
  context_ Demo.detached = Some Demo.context ∧
  RecoResult.box Demo.hit = Some Demo.region ∧
  NodeDetail.node_id rw.1 = 1 ∧
  taskers rw.2 = ∅ ∧
  ¬ ∃ t, RuntimeCache.get_node_detail (NodeDetail.node_id rw.1) (runtime_cache t rw.2)
         = Some rw.1.
Proof.
  cbv zeta. split_and!; try reflexivity.
  intros [t Hget]. unfold runtime_cache in Hget.
  change (taskers (run_action Demo.detached Demo.hit (Demo.world false)).2)
    with (∅ : gmap TaskerPtr RuntimeCache.t) in Hget.
  rewrite lookup_total_empty in Hget. discriminate Hget.
Qed.

(** C4, as amended, on the executor with a tasker. *)
Lemma run_action_allocates_and_records_witness :
  let rw := run_action Demo.executor Demo.hit (Demo.world false) in
  context_ Demo.executor = Some Demo.context ∧
  RecoResult.box Demo.hit = Some Demo.region ∧
  s_global_node_id rw.2 = NodeDetail.node_id rw.1 ∧
  RuntimeCache.get_node_detail (NodeDetail.node_id rw.1) (runtime_cache 1%nat rw.2)
    = Some rw.1.
Proof.
  cbv zeta. split; [reflexivity|]. split; [reflexivity|].
  destruct (run_action_allocates_and_records Demo.executor Demo.context Demo.hit
              Demo.region (Demo.world false) eq_refl eq_refl)
    as (_ & Hid & _ & _ & Hstored).
  split; [exact Hid | exact Hstored].
Defined.

(** C5 on the executor with a tasker. *)
Lemma run_action_appends_history_witness :
  let w := Demo.world false in
  let rw := run_action Demo.executor Demo.hit w in
  let prior :=
    default {| TaskDetail.entry := entry_ Demo.executor; TaskDetail.node_ids := [] |}
            (RuntimeCache.get_task_detail (task_id_ Demo.executor) (runtime_cache 1%nat w)) in
  tasker_ Demo.executor = Some 1%nat ∧
  RuntimeCache.get_task_detail (task_id_ Demo.executor) (runtime_cache 1%nat rw.2)
    = Some {| TaskDetail.entry := TaskDetail.entry prior;
              TaskDetail.node_ids := TaskDetail.node_ids prior ++ [NodeDetail.node_id rw.1] |}.
Proof.
  cbv zeta. split; [reflexivity|].
  destruct (run_action_appends_history Demo.executor Demo.context Demo.hit
              Demo.region 1%nat (Demo.world false) eq_refl eq_refl eq_refl)
    as (_ & Htask & _).
  exact Htask.
Defined.

(** C6 as stated fails on an executor without a tasker: debug mode is on,
    [B] is evaluated and [C] is acted on, and no notification goes out. *)
Lemma node_events_counterexample :
  let w := Demo.world true in
  let rw := run_recognition Demo.detached Demo.image ["B"] w in
  let aw := run_action Demo.detached Demo.hit w in
  global_debug_mode w = true ∧
  recognizer_calls (trace rw.2) = [("B", Demo.miss)] ∧
  notifications (trace rw.2) = [] ∧
  actuator_calls (trace aw.2) = [(Demo.region, 2, "C", false)] ∧
  notifications (trace aw.2) = [].
Proof. cbv zeta. split_and!; reflexivity. Qed.

(** C6, as amended, on the executor with a tasker, in debug mode. *)
Lemma node_events_emitted_iff_witness :
  let w := Demo.world true in
  let aw := run_action Demo.executor Demo.hit w in
  let cond := global_debug_mode w || focus (get_pipeline_data Demo.context "C") in
  context_ Demo.executor = Some Demo.context ∧
  trace aw.2 = trace w
    ++ notified Demo.executor cond MaaMsg_Task_Action_Starting
         (action_cb_detail Demo.executor 0 "C")
    ++ [OActuate Demo.region 2 "C" (NodeDetail.completed aw.1)]
    ++ notified Demo.executor cond
         (if NodeDetail.completed aw.1 then MaaMsg_Task_Action_Succeeded
          else MaaMsg_Task_Action_Failed)
         (action_cb_detail Demo.executor (NodeDetail.node_id aw.1) "C").
Proof.
  cbv zeta. split; [reflexivity|].
  destruct (node_events_emitted_iff Demo.executor Demo.context Demo.image
              ["A"; "B"; "C"] Demo.hit (Demo.world true) eq_refl)
    as [_ Haction].
  exact (Haction Demo.region eq_refl).
Defined.

(** C7 as stated fails at the end of the [int64_t] range: two calls in
    a row from a counter at [INT64_MAX - 1] return [INT64_MAX] and then
    [INT64_MIN], which is smaller.  A fresh process gets there by itself:
    of [2 ^ 63] calls in a row the first returns 1 and the last returns
    [INT64_MIN]. *)
Lemma node_ids_wrap_counterexample :
  let calls := [(Demo.executor, Demo.hit); (Demo.executor, Demo.hit)] in
  let rw := run_actions calls Demo.late_world in
  let many := replicate (S (Z.to_nat (2 ^ 63 - 1))) (Demo.executor, Demo.hit) in
  let ids := NodeDetail.node_id <$> (run_actions many (Demo.world false)).1 in
  Forall can_run calls ∧
  NodeDetail.node_id <$> rw.1 = [INT64_MAX; INT64_MIN] ∧
  INT64_MIN < INT64_MAX ∧
  ids !! 0%nat = Some 1 ∧
  ids !! Z.to_nat (2 ^ 63 - 1) = Some INT64_MIN.
Proof.
  cbv zeta.
  assert (Hcan : can_run (Demo.executor, Demo.hit)) by (split; by eexists).
  split_and!; [by repeat constructor | reflexivity | reflexivity | |].
  - rewrite run_actions_ids_wrap by (by apply Forall_replicate).
    rewrite length_replicate, list_lookup_fmap, lookup_seqZ_lt by lia.
    reflexivity.
  - apply run_actions_wrap_around; [exact Hcan|].
    change (s_global_node_id (Demo.world false)) with 0.
    unfold INT64_MAX. lia.
Qed.

(** C7, as amended, at two calls by two executors on a fresh process. *)
Lemma node_ids_increase_below_int64_max_witness :
  let calls := [(Demo.executor, Demo.hit); (Demo.detached, Demo.hit)] in
  let w := Demo.world false in
  let ids := NodeDetail.node_id <$> (run_actions calls w).1 in
  Forall can_run calls ∧
  INT64_MIN ≤ s_global_node_id w ∧
  s_global_node_id w + Z.of_nat (length calls) ≤ INT64_MAX ∧
  StronglySorted Z.lt ids ∧
  NoDup ids.
Proof.
  cbv zeta.
  assert (Hcan : Forall can_run [(Demo.executor, Demo.hit); (Demo.detached, Demo.hit)])
    by (repeat constructor; by eexists).
  assert (Hlo : INT64_MIN ≤ s_global_node_id (Demo.world false)) by (vm_compute; discriminate).
  assert (Hhi : s_global_node_id (Demo.world false)
                + Z.of_nat (length [(Demo.executor, Demo.hit); (Demo.detached, Demo.hit)])
                ≤ INT64_MAX) by (vm_compute; discriminate).
  destruct (node_ids_increase_below_int64_max _ _ Hcan Hlo Hhi)
    as (_ & _ & Hsorted & Hnodup & _).
  split_and!; [exact Hcan | exact Hlo | exact Hhi | exact Hsorted | exact Hnodup].
Defined.

(** C8 at the three candidates of the example: [C] matches, so the cases
    of the theorem leave the first one, and the closing is succeeded. *)
Lemma next_list_outcome_exclusive_witness :
  let w := Demo.world true in
  let rw := run_recognition Demo.executor Demo.image ["A"; "B"; "C"] w in
  context_ Demo.executor = Some Demo.context ∧
  Mat_empty Demo.image = false ∧
  RecoResult.box rw.1 = Some Demo.region ∧
  ∃ new calls,
    trace rw.2 = trace w ++ new ∧
    recognizer_calls new = calls ∧
    Recognizer_replay (tasker_ Demo.executor) Demo.context Demo.image calls.*1 (ext w)
      = (calls, ext rw.2) ∧
    last new = Some (ONotify 1%nat (list_end_msg rw.1)
                       (reco_list_cb_detail Demo.executor ["A"; "B"; "C"])) ∧
    ¬ (emits MaaMsg_Task_NextList_Succeeded new ∧ emits MaaMsg_Task_NextList_Failed new).
Proof.
  cbv zeta. split; [reflexivity|]. split; [reflexivity|]. split; [reflexivity|].
  destruct (next_list_outcome_exclusive Demo.executor Demo.context Demo.image
              ["A"; "B"; "C"] (Demo.world true) eq_refl eq_refl)
    as (new & mid & calls & Htrace & _ & _ & Hcalls & Hreplay & _ & Hlast & _ & _ & _ & _ & Hnot).
  exists new, calls.
  split_and!; [exact Htrace | exact Hcalls | exact Hreplay | exact (Hlast 1%nat eq_refl eq_refl)
              | exact Hnot].
Defined.

(** C9 on the executor without a tasker. *)
Lemma run_action_without_tasker_witness :
  let w := Demo.world true in
  let rw := run_action Demo.detached Demo.hit w in
  tasker_ Demo.detached = None ∧
  s_global_node_id rw.2 = wrap64 (s_global_node_id w + 1) ∧
  trace rw.2 = trace w ++ [OActuate Demo.region 2 "C" false] ∧
  taskers rw.2 = taskers w ∧
  log rw.2 = log w ++ [(LogError, "tasker is null")].
Proof.
  cbv zeta. split; [reflexivity|].
  destruct (run_action_without_tasker Demo.detached Demo.context Demo.hit
              Demo.region (Demo.world true) eq_refl eq_refl eq_refl)
    as (_ & Hid & Htrace & Hst & Hlog).
  split_and!; [exact Hid | exact Htrace | exact Hst | exact Hlog].
Defined.

(** C10 on the executor with a tasker, for an action that does not
    complete. *)
Lemma run_action_sets_latest_node_witness :
  let rw := run_action Demo.executor Demo.hit (Demo.world false) in
  NodeDetail.completed rw.1 = false ∧
  RuntimeCache.get_latest_node "C" (runtime_cache 1%nat rw.2)
    = Some (NodeDetail.node_id rw.1).
Proof.
  cbv zeta.
  destruct (run_action_sets_latest_node Demo.executor Demo.context Demo.hit
              Demo.region 1%nat (Demo.world false) eq_refl eq_refl eq_refl)
    as (_ & Hdone & Hlatest).
  split; [exact Hdone | exact Hlatest].
Defined.

(** X2 on the executor with a tasker: the record of
    another task is not touched. *)
Lemma run_action_frame_witness :
  let w := Demo.world false in
  let rw := run_action Demo.executor Demo.hit w in
  RuntimeCache.get_task_detail 8 (runtime_cache 1%nat rw.2)
  = RuntimeCache.get_task_detail 8 (runtime_cache 1%nat w).
Proof.
  cbv zeta.
  destruct (run_action_frame Demo.executor Demo.context Demo.hit Demo.region 1%nat
              (Demo.world false) eq_refl eq_refl eq_refl)
    as (_ & _ & _ & Htask).
  apply Htask. discriminate.
Defined.

(** Example.  First match: of [A] (disabled), [B] (enabled, no region)
    and [C] (enabled, region [(10,10,5,5)]), in debug mode, [C] is
    returned with its region, [B] and [C] are the candidates asked, and the
    notifications are the list opening, Starting and Failed for [B],
    Starting and Succeeded for [C], and the list closing as succeeded. *)
Example first_match_example :
  let rw := run_recognition Demo.executor Demo.image ["A"; "B"; "C"] (Demo.world true) in
  RecoResult.name rw.1 = "C" ∧
  RecoResult.box rw.1 = Some Demo.region ∧
  (recognizer_calls (trace rw.2)).*1 = ["B"; "C"] ∧
  notification_kinds (trace rw.2) =
    [MaaMsg_Task_NextList_Starting;
     MaaMsg_Task_Recognition_Starting; MaaMsg_Task_Recognition_Failed;
     MaaMsg_Task_Recognition_Starting; MaaMsg_Task_Recognition_Succeeded;
     MaaMsg_Task_NextList_Succeeded].
Proof. cbv zeta. split_and!; reflexivity. Qed.

(** Example.  All fail: [B] and [D] are enabled and neither matches; the
    empty result comes back, the last notification is the list closing as
    failed, and no NextList.Succeeded is among them. *)
Example all_fail_example :
  let rw := run_recognition Demo.executor Demo.image ["B"; "D"] (Demo.world true) in
  rw.1 = RecoResult.empty ∧
  (recognizer_calls (trace rw.2)).*1 = ["B"; "D"] ∧
  last (notification_kinds (trace rw.2)) = Some MaaMsg_Task_NextList_Failed ∧
  MaaMsg_Task_NextList_Succeeded ∉ notification_kinds (trace rw.2).
Proof.
  cbv zeta. split_and!; try reflexivity.
  intros Hin. vm_compute in Hin. repeat (apply elem_of_cons in Hin as [Hin|Hin]; [discriminate|]).
  by apply elem_of_nil in Hin.
Qed.

(** Example.  Outside debug mode only focused nodes are announced: of [B] (not
    focused) and [D] (focused), asked by an executor whose current node
    [B] is not focused, the notifications are Starting and Failed for [D]
    and nothing else. *)
Example focus_only_example :
  let rw := run_recognition Demo.executor Demo.image ["B"; "D"] (Demo.world false) in
  (recognizer_calls (trace rw.2)).*1 = ["B"; "D"] ∧
  notifications (trace rw.2) =
    [(1%nat, MaaMsg_Task_Recognition_Starting, reco_cb_detail Demo.executor 0 "D");
     (1%nat, MaaMsg_Task_Recognition_Failed, reco_cb_detail Demo.executor 2 "D")].
Proof. cbv zeta. split; reflexivity. Qed.

(** * The further properties on the small instance *)

(** X5 at a disabled candidate and an unknown one. *)
Lemma run_recognition_none_enabled_witness :
  let w := Demo.world true in
  let rw := run_recognition Demo.executor Demo.image ["A"; "Z"] w in
  Forall (λ name, enabled (get_pipeline_data Demo.context name) = false) ["A"; "Z"] ∧
  rw.1 = RecoResult.empty ∧
  ext rw.2 = ext w.
Proof.
  cbv zeta.
  assert (Hoff : Forall (λ name, enabled (get_pipeline_data Demo.context name) = false)
                   ["A"; "Z"]) by (by repeat constructor).
  destruct (run_recognition_none_enabled Demo.executor Demo.context Demo.image ["A"; "Z"]
              (Demo.world true) eq_refl eq_refl Hoff) as (Hr & Hext & _).
  split_and!; [exact Hoff | exact Hr | exact Hext].
Defined.

(** X6 on the instance, where the region found is the node's own. *)
Lemma run_recognition_is_find_witness :
  let region := λ name, Demo.node_region (Demo.pipeline name) in
  let rw := run_recognition Demo.executor Demo.image ["A"; "B"; "C"] (Demo.world true) in
  match List.find (λ name, enabled (get_pipeline_data Demo.context name)
                           && bool_decide (is_Some (region name))) ["A"; "B"; "C"] with
  | Some name =>
      RecoResult.box rw.1 = region name ∧
      is_Some (region name) ∧
      ∃ asked, recognizer_calls (trace rw.2)
               = recognizer_calls (trace (Demo.world true)) ++ asked ∧
               last asked = Some (name, rw.1)
  | None => rw.1 = RecoResult.empty
  end.
Proof.
  cbv zeta.
  apply (run_recognition_is_find Demo.executor Demo.context Demo.image
           (λ name, Demo.node_region (Demo.pipeline name)) ["A"; "B"; "C"]
           (Demo.world true) eq_refl eq_refl).
  intros name e. reflexivity.
Defined.

(** X10 on the executor without a tasker. *)
Lemma detached_executor_is_silent_witness :
  let w := Demo.world true in
  tasker_ Demo.detached = None ∧
  taskers (run_action Demo.detached Demo.hit w).2 = taskers w ∧
  notifications (trace (run_action Demo.detached Demo.hit w).2) = notifications (trace w).
Proof.
  cbv zeta. split; [reflexivity|].
  destruct (detached_executor_is_silent 7 "B" (Some Demo.context) Demo.detached Demo.image
              ["B"; "C"] Demo.hit (Demo.world true) eq_refl) as (_ & _ & Hact).
  exact Hact.
Defined.

(** X11 at three calls by two executors of two tasks on tasker 1. *)
Lemma task_history_follows_calls_witness :
  let calls := [(Demo.executor, Demo.hit); (DemoDevices.other, DemoDevices.hit_d);
                (Demo.executor, DemoDevices.hit_d)] in
  let w := Demo.world false in
  let rw := run_actions calls w in
  Forall can_run calls ∧
  history 7 (runtime_cache 1%nat rw.2)
  = history 7 (runtime_cache 1%nat w) ++ ids_where (of_task 1%nat 7) calls rw.1.
Proof.
  cbv zeta.
  assert (Hcan : Forall can_run
                   [(Demo.executor, Demo.hit); (DemoDevices.other, DemoDevices.hit_d);
                    (Demo.executor, DemoDevices.hit_d)])
    by (repeat constructor; by eexists).
  split; [exact Hcan|].
  exact (task_history_follows_calls 1%nat 7 _ (Demo.world false) Hcan).
Defined.

(** X12 at the same three calls, for the name [D]. *)
Lemma latest_node_is_last_call_witness :
  let calls := [(Demo.executor, Demo.hit); (DemoDevices.other, DemoDevices.hit_d);
                (Demo.executor, DemoDevices.hit_d)] in
  let w := Demo.world false in
  let rw := run_actions calls w in
  Forall can_run calls ∧
  RuntimeCache.get_latest_node "D" (runtime_cache 1%nat rw.2)
  = match last (ids_where (of_name 1%nat "D") calls rw.1) with
    | Some id => Some id
    | None => RuntimeCache.get_latest_node "D" (runtime_cache 1%nat w)
    end.
Proof.
  cbv zeta.
  assert (Hcan : Forall can_run
                   [(Demo.executor, Demo.hit); (DemoDevices.other, DemoDevices.hit_d);
                    (Demo.executor, DemoDevices.hit_d)])
    by (repeat constructor; by eexists).
  split; [exact Hcan|].
  exact (latest_node_is_last_call 1%nat "D" _ (Demo.world false) Hcan).
Defined.

(** X13 at the same three calls: the record of the first is still there
    after the other two. *)
Lemma records_stay_queryable_witness :
  let calls := [(Demo.executor, Demo.hit); (DemoDevices.other, DemoDevices.hit_d);
                (Demo.executor, DemoDevices.hit_d)] in
  let w := Demo.world false in
  let r := {| NodeDetail.node_id := 1; NodeDetail.name := "C"; NodeDetail.reco_id := 2;
              NodeDetail.completed := false |} in
  (run_actions calls w).1 !! 0%nat = Some r ∧
  RuntimeCache.get_node_detail 1 (runtime_cache 1%nat (run_actions calls w).2) = Some r.
Proof.
  cbv zeta. split; [reflexivity|].
  assert (Hcan : Forall can_run
                   [(Demo.executor, Demo.hit); (DemoDevices.other, DemoDevices.hit_d);
                    (Demo.executor, DemoDevices.hit_d)])
    by (repeat constructor; by eexists).
  apply (records_stay_queryable _ (Demo.world false) 0 Demo.executor Demo.hit 1%nat
           {| NodeDetail.node_id := 1; NodeDetail.name := "C"; NodeDetail.reco_id := 2;
              NodeDetail.completed := false |} Hcan);
    first [reflexivity | (vm_compute; discriminate)].
Defined.

(** X14 on an executor whose tasker has no controller. *)
Lemma screencap_without_controller_witness :
  let w := Demo.world true in
  let sw := screencap (P := DemoDevices.peripherals) DemoDevices.blind w in
  let rw := run_recognition DemoDevices.blind sw.1 ["B"; "C"] sw.2 in
  sw.1 = [] ∧ rw.1 = RecoResult.empty ∧ trace rw.2 = trace w.
Proof.
  cbv zeta.
  destruct (screencap_without_controller (P := DemoDevices.peripherals) DemoDevices.blind
              ["B"; "C"] (Demo.world true)) as [_ Hno].
  destruct Hno as (Hshot & _ & Hreco).
  { right. exists 2%nat. split; reflexivity. }
  destruct (Hreco eq_refl) as (Hr & Htrace & _).
  split_and!; [exact Hshot | exact Hr | exact Htrace].
Defined.

(** X15 on the executor whose tasker has a controller. *)
Lemma capture_then_recognition_witness :
  let w := Demo.world true in
  let sw := screencap (P := DemoDevices.peripherals) Demo.executor w in
  let rw := run_recognition Demo.executor sw.1 ["A"; "B"; "C"] sw.2 in
  sw.1 = [[0]] ∧
  ∃ calls, recognizer_calls (trace rw.2) = recognizer_calls (trace w) ++ calls ∧
           selects Demo.context ["A"; "B"; "C"] calls rw.1.
Proof.
  cbv zeta.
  destruct (capture_then_recognition (P := DemoDevices.peripherals) Demo.executor 1%nat 5%nat
              Demo.context ["A"; "B"; "C"] (Demo.world true) eq_refl eq_refl eq_refl eq_refl)
    as (Hshot & _ & calls & Hcalls & _ & Hsel).
  split; [exact Hshot|]. exists calls. split; [exact Hcalls | exact Hsel].
Defined.

(** X16 on a patch that disables [C]: the next recognition asks only
    candidates enabled after the patch. *)
Lemma override_pipeline_takes_effect_witness :
  let r := override_pipeline (P := DemoDevices.peripherals) Demo.executor (JString "C") in
  let patched := DemoDevices.disable (JString "C") Demo.context in
  let rw := run_recognition r.2 Demo.image ["A"; "B"; "C"] (Demo.world true) in
  r.1 = true ∧
  ∃ asked,
    recognizer_calls (trace rw.2) = recognizer_calls (trace (Demo.world true)) ++ asked ∧
    Forall (λ call, call.1 ∈ ["A"; "B"; "C"] ∧
                    enabled (get_pipeline_data patched.2 call.1) = true) asked.
Proof.
  cbv zeta.
  destruct (override_pipeline_takes_effect (P := DemoDevices.peripherals) Demo.executor
              (JString "C") Demo.image ["A"; "B"; "C"] (Demo.world true))
    as (_ & _ & Hsome).
  destruct (Hsome Demo.context eq_refl) as (Hverdict & _ & Hreco).
  split; [exact Hverdict|]. exact (Hreco eq_refl).
Defined.
